(** * Thin-lens optics: a shallow embedding of [LensSystem.py] and
      [LensCalculator.py]

    The two Python modules compute with IEEE binary64 numbers.  Part I
    gives the code two readings.

    - The binary64 model (module [B64]) computes as the code does, on the
      kernel's primitive floats: every operation rounds, a product can
      underflow to zero, sums are taken in the order the code takes them,
      a division between Python floats raises [ZeroDivisionError] at a
      zero divisor, and a division in which a numpy [float64] takes part
      gives an IEEE infinity or NaN there and raises nothing.  What is
      said below about a number that is returned, about the precondition
      f_i n_i <> 0 and about divisions by zero is stated and proved in
      this model.
    - The exact model computes over the rationals ([Qc]).  It serves the
      properties that do not turn on rounding: which cells of its lists a
      function reads, how many values it returns and in what order the
      operations are applied, what the input loop of [main] keeps
      invariant, and the identities that binary64 shares for finite
      values (x/x = 1, d*1 = d, 0*x = 0, n + 0 = n).  The exact model has
      no infinities: where numpy would produce one it stops
      ([NonFinite]), and the properties stated in it stay clear of that
      case or say that the result is not finite.

    Definitions come first (Part I); Part II holds the properties the
    specification states, Part III further properties of the code. *)

From Stdlib Require Import QArith Qcanon Floats.
From stdpp Require Import base option list numbers strings gmap.

(** A decimal literal denotes the binary64 number nearest to it, as it
    does in Python. *)
Set Warnings "-inexact-float".

Local Open Scope Qc_scope.

(** ** Part I. The embedding *)

(** *** The exact model *)

(** **** Python and numpy primitives *)

(** Exceptions the modelled code can raise. *)
Inductive exn : Type :=
| ZeroDivisionError
| IndexError
| ValueError
| AttributeError.

(** Outcome of running a piece of Python code. *)
Inductive outcome (A : Type) : Type :=
| Ok (a : A)
| Raise (e : exn)
| NonFinite.

Arguments Ok {A} a.
Arguments Raise {A} e.
Arguments NonFinite {A}.

#[global] Instance exn_eq_dec : EqDecision exn.
Proof. solve_decision. Defined.

#[global] Instance outcome_eq_dec {A : Type} `{EqDecision A} :
  EqDecision (outcome A).
Proof. solve_decision. Defined.

#[global] Instance outcome_ret : MRet outcome := fun _ a => Ok a.

#[global] Instance outcome_bind : MBind outcome := fun _ _ k c =>
  match c with
  | Ok a => k a
  | Raise e => Raise e
  | NonFinite => NonFinite
  end.

#[global] Instance outcome_fmap : FMap outcome := fun _ _ g c =>
  match c with
  | Ok a => Ok (g a)
  | Raise e => Raise e
  | NonFinite => NonFinite
  end.

(** Rational constants.  A decimal literal of the source that binary64
    does not hold exactly ([np.pi], [0.02], [1e-6]) is embedded as the
    rational its binary64 value is. *)
Definition lit (q : Q) : Qc := Q2Qc q.

(** [x / y] on two Python floats. *)
Definition py_truediv (x y : Qc) : outcome Qc :=
  if decide (y = 0) then Raise ZeroDivisionError else Ok (x / y).

(** [x / y] where an operand is a numpy float64 or ndarray element. *)
Definition np_true_divide (x y : Qc) : outcome Qc :=
  if decide (y = 0) then NonFinite else Ok (x / y).

(** A float is a Python [float] or a numpy [float64]; arithmetic between
    the two gives a [float64], and the two differ at a zero divisor only. *)
Inductive float_kind : Type := PyFloat | NpFloat64.

Record scalar : Type := Scalar { scalar_kind : float_kind; scalar_value : Qc }.

(** [x / y] where the operands are of kind [kd]. *)
Definition truediv (kd : float_kind) (x y : Qc) : outcome Qc :=
  match kd with
  | PyFloat => py_truediv x y
  | NpFloat64 => np_true_divide x y
  end.

(** What a zero divisor leads to. *)
Definition division_fault {A : Type} (kd : float_kind) : outcome A :=
  match kd with
  | PyFloat => Raise ZeroDivisionError
  | NpFloat64 => NonFinite
  end.

(** [l[i]] for a non-negative index. *)
Definition py_getitem {A : Type} (l : list A) (i : nat) : outcome A :=
  match l !! i with
  | Some a => Ok a
  | None => Raise IndexError
  end.

(** [sum(g(x) for x in xs)]: the generator is consumed left to right, the
    running total starts at the integer [0]. *)
Fixpoint py_sum_from {A : Type} (g : A -> outcome Qc) (xs : list A) (acc : Qc)
  : outcome Qc :=
  match xs with
  | [] => Ok acc
  | x :: rest => v ← g x; py_sum_from g rest (acc + v)
  end.

Definition py_sum {A : Type} (g : A -> outcome Qc) (xs : list A) : outcome Qc :=
  py_sum_from g xs 0.

(** Elementwise application of a fallible scalar operation to an ndarray. *)
Fixpoint np_map (g : Qc -> outcome Qc) (xs : list Qc) : outcome (list Qc) :=
  match xs with
  | [] => Ok []
  | x :: rest => v ← g x; vs ← np_map g rest; Ok (v :: vs)
  end.

(** The constant [np.pi], the binary64 number nearest to pi. *)
Definition np_pi : Qc := lit (884279719003555 # 281474976710656).

(** 2x2 ndarrays, row major: [[m00, m01], [m10, m11]]. *)
Record mat2 : Type := Mat2 { m00 : Qc; m01 : Qc; m10 : Qc; m11 : Qc }.

#[global] Instance mat2_eq_dec : EqDecision mat2.
Proof. solve_decision. Defined.

(** [np.eye(2)] *)
Definition np_eye2 : mat2 := Mat2 1 0 0 1.

(** [A @ B] on 2x2 arrays. *)
Definition matmul (A B : mat2) : mat2 :=
  Mat2 (m00 A * m00 B + m01 A * m10 B) (m00 A * m01 B + m01 A * m11 B)
       (m10 A * m00 B + m11 A * m10 B) (m10 A * m01 B + m11 A * m11 B).

Infix "@@" := matmul (at level 40, left associativity).

(** [np.linspace(start, stop, num)]: [num] evenly spaced samples from
    [start] to [stop], both ends included; a negative [num] is refused. *)
Definition np_linspace (start stop : Qc) (num : Z) : outcome (list Qc) :=
  if decide (num < 0)%Z then Raise ValueError
  else
    let n := Z.to_nat num in
    let step := (stop - start) / Qc_of_Z (num - 1) in
    Ok ((fun i : nat => start + Qc_of_Z (Z.of_nat i) * step) <$> seq 0 n).

(** **** LensSystem.py *)

(** class WaveProperties *)
Record WaveProperties : Type := mkWaveProperties {
  wavelength : Qc;
  k : Qc;
  omega : Qc
}.

Definition WaveProperties_init (wavelength : Qc) : outcome WaveProperties :=
  k ← py_truediv (lit 2 * np_pi) wavelength;
  Ok (mkWaveProperties wavelength k (lit 300000000 * k)).

(** class OpticalMaterial *)
Record OpticalMaterial : Type := mkOpticalMaterial {
  n0 : Qc;
  dn_dT : Qc;
  reference_temp : Qc
}.

Definition OpticalMaterial_init (n0 dn_dT : Qc) : OpticalMaterial :=
  mkOpticalMaterial n0 dn_dT (lit 20).

(** The result is a [float64] exactly when [T] is one; the value is the
    same in both cases. *)
Definition get_n (self : OpticalMaterial) (T : Qc) : Qc :=
  n0 self + dn_dT self * (T - reference_temp self).

(** class LensSystem.  The constructor sets [temperature] to the Python
    float 20.0; the sweep of [plot_system_analysis] assigns it the elements
    of [np.linspace(0, 40, 100)], which are [float64]. *)
Record LensSystem : Type := mkLensSystem {
  focal_lengths : list Qc;
  distances : list Qc;
  materials : list OpticalMaterial;
  temperature : scalar
}.

Definition LensSystem_init (focal_lengths distances : list Qc)
    (materials : list OpticalMaterial) : LensSystem :=
  mkLensSystem focal_lengths distances materials (Scalar PyFloat (lit 20)).

#[global] Instance float_kind_eq_dec : EqDecision float_kind.
Proof. solve_decision. Defined.

#[global] Instance scalar_eq_dec : EqDecision scalar.
Proof. solve_decision. Defined.

#[global] Instance OpticalMaterial_eq_dec : EqDecision OpticalMaterial.
Proof. solve_decision. Defined.

#[global] Instance LensSystem_eq_dec : EqDecision LensSystem.
Proof. solve_decision. Defined.

(** [lens_system.temperature = T] *)
Definition set_temperature (T : scalar) (self : LensSystem) : LensSystem :=
  mkLensSystem (focal_lengths self) (distances self) (materials self) T.

(** The body of [for i, f in enumerate(self.focal_lengths)], entered at
    index [i] with [fs] still to visit and [M] accumulated so far.  [f] is
    a Python float and [n] has the kind of the temperature, so the division
    is Python's unless the temperature is a [float64]. *)
Fixpoint transfer_matrix_loop (self : LensSystem) (i : nat) (fs : list Qc)
    (M : mat2) : outcome mat2 :=
  match fs with
  | [] => Ok M
  | f :: rest =>
      P ← (if decide (i < length (distances self))%nat
           then d ← py_getitem (distances self) i; Ok (Mat2 1 d 0 1)
           else Ok np_eye2);
      mat ← py_getitem (materials self) i;
      let n := get_n mat (scalar_value (temperature self)) in
      l ← truediv (scalar_kind (temperature self)) (- 1) (f * n);
      let L := Mat2 1 0 l 1 in
      transfer_matrix_loop self (S i) rest (M @@ P @@ L)
  end.

Definition transfer_matrix (self : LensSystem) : outcome mat2 :=
  transfer_matrix_loop self 0 (focal_lengths self) np_eye2.

(** The readout [f_eff = -1/M[1,0]] of [main]; [M[1,0]] is a numpy scalar. *)
Definition effective_focal_length (M : mat2) : outcome Qc :=
  np_true_divide (- 1) (m10 M).

(** class WaveOpticsCalculator.  [scipy.special.j0] is external to the
    repository and enters as a parameter. *)
Section WaveOptics.
Variable j0 : Qc -> Qc.

Definition calculate_diffraction (wave : WaveProperties)
    (aperture_radius distance : Qc) (points : Z)
  : outcome (list Qc * list Qc) :=
  r ← np_linspace 0 (aperture_radius * lit 10) points;
  I ← np_map (fun ri =>
                x ← np_true_divide (k wave * aperture_radius * ri) distance;
                Ok ((aperture_radius * j0 x) ^ 2)) r;
  Ok (r, I).
End WaveOptics.

(** [calculate_interference]; [np.cos] and [np.sin] are external to the
    repository and enter as parameters.  The divisor is the literal 2. *)
Section Interference.
Variables np_cos np_sin : Qc -> Qc.

Definition calculate_interference (wave : WaveProperties) (d : Qc)
    (theta : list Qc) : list Qc :=
  (fun t => np_cos (k wave * d * np_sin t / lit 2) ^ 2) <$> theta.
End Interference.

(** class OpticalSystemOptimizer.  [M[1,0]] is a numpy scalar, so both
    divisions follow numpy. *)
Definition optimize_focal_length (lens_system : LensSystem) (target_f : Qc)
  : outcome (list Qc) :=
  M ← transfer_matrix lens_system;
  current_f ← np_true_divide (- 1) (m10 M);
  scale ← np_true_divide target_f current_f;
  let new_distances := (fun d => d * scale) <$> distances lens_system in
  Ok new_distances.

(** **** LensCalculator.py *)

Inductive LensType : Type := CONVERGING | DIVERGING | ACHROMATIC | FRESNEL.

(** class Lens *)
Record Lens : Type := mkLens {
  focal_length : Qc;
  lens_type : LensType;
  diameter : Qc;
  refractive_index : Qc;
  dispersion : Qc
}.

(** [0.02] is the binary64 number 5764607523034235 / 2^58. *)
Definition Lens_init (focal_length : Qc) (lens_type : LensType)
    (diameter : Qc) : Lens :=
  mkLens focal_length lens_type diameter (lit (3 # 2))
    (lit (5764607523034235 # 288230376151711744)).

(** A Python float result that may be the literal [float('inf')]. *)
Inductive pyfloat : Type :=
| Finite (q : Qc)
| PosInf.

#[global] Instance pyfloat_eq_dec : EqDecision pyfloat.
Proof. solve_decision. Defined.

(** class LensCalculator *)
Definition series_focal_length (lenses : list Lens) : outcome pyfloat :=
  match lenses with
  | [] => Ok (Finite 0)
  | _ =>
      total_power ← py_sum (fun lens => py_truediv 1 (focal_length lens)) lenses;
      if decide (total_power <> 0)
      then v ← py_truediv 1 total_power; Ok (Finite v)
      else Ok PosInf
  end.

#[global] Instance LensType_eq_dec : EqDecision LensType.
Proof. solve_decision. Defined.

(** **** The interactive session of [main] in LensSystem.py

    What the user types is a list of lines; [input()] takes the first one
    and raises [EOFError] when none is left.  Python's [float] on a string
    is external to the repository and enters as a parameter:
    [py_float s = None] stands for the [ValueError] that [float(s)] raises
    (strings that denote an infinity or a NaN are outside the exact
    model). *)

(** How a run of [main] can stop early. *)
Inductive stop : Type :=
| EOFError
| Uncaught (e : exn)
| OutOfModel.

(** One [float(input(...))]. *)
Inductive read (A : Type) : Type :=
| Read (a : A) (rest : list string)
| BadNumber (rest : list string)
| EndOfInput.

Arguments Read {A} a rest.
Arguments BadNumber {A} rest.
Arguments EndOfInput {A}.

(** One pass through the body of a [while True] loop. *)
Inductive step (S : Type) : Type :=
| Continue (st : S) (rest : list string)
| Break (st : S) (rest : list string)
| Stop (e : stop).

Arguments Continue {S} st rest.
Arguments Break {S} st rest.
Arguments Stop {S} e.

Inductive finish (S : Type) : Type :=
| Finished (st : S) (rest : list string)
| Stopped (e : stop).

Arguments Finished {S} st rest.
Arguments Stopped {S} e.

(** [while True: body], with [fuel] passes at most. *)
Fixpoint run_loop {S : Type} (body : S -> list string -> step S) (fuel : nat)
    (st : S) (inp : list string) : option (finish S) :=
  match fuel with
  | O => None
  | Datatypes.S fuel' =>
      match body st inp with
      | Continue st' rest => run_loop body fuel' st' rest
      | Break st' rest => Some (Finished st' rest)
      | Stop e => Some (Stopped e)
      end
  end.

(** Every pass that continues has taken a line, so one pass more than
    there are lines is fuel enough. *)
Definition while_true {S : Type} (body : S -> list string -> step S)
    (st : S) (inp : list string) : option (finish S) :=
  run_loop body (Datatypes.S (length inp)) st inp.

Definition consumes {S : Type} (body : S -> list string -> step S) : Prop :=
  forall st inp st' rest,
    body st inp = Continue st' rest -> (length rest < length inp)%nat.

(** The three lists [main] of LensSystem.py fills. *)
Record entered : Type := Entered {
  entered_focal_lengths : list Qc;
  entered_distances : list Qc;
  entered_materials : list OpticalMaterial
}.

(** What the loop of LensSystem.py keeps true of its three lists, whatever
    is typed. *)
Definition entered_bounds (st : entered) : Prop :=
  Forall (fun f => f <> 0) (entered_focal_lengths st) /\
  (length (entered_materials st) <= length (entered_focal_lengths st))%nat /\
  (length (entered_distances st)
   <= pred (length (entered_focal_lengths st)))%nat /\
  Forall (fun m => reference_temp m = lit 20) (entered_materials st).

(** The lists are aligned: a material per focal length, one distance
    fewer. *)
Definition entered_aligned (st : entered) : Prop :=
  length (entered_materials st) = length (entered_focal_lengths st) /\
  length (entered_distances st) = pred (length (entered_focal_lengths st)).

#[global] Instance stop_eq_dec : EqDecision stop.
Proof. solve_decision. Defined.

#[global] Instance finish_eq_dec {S : Type} `{EqDecision S} :
  EqDecision (finish S).
Proof. solve_decision. Defined.

#[global] Instance Lens_eq_dec : EqDecision Lens.
Proof. solve_decision. Defined.

#[global] Instance entered_eq_dec : EqDecision entered.
Proof. solve_decision. Defined.

Section Console.
Variable py_float : string -> option Qc.

(** [float(input(prompt))] *)
Definition input_float (inp : list string) : read Qc :=
  match inp with
  | [] => EndOfInput
  | s :: rest =>
      match py_float s with
      | Some q => Read q rest
      | None => BadNumber rest
      end
  end.

(** [float(input(prompt) or default)] *)
Definition input_float_or (default : Qc) (inp : list string) : read Qc :=
  match inp with
  | [] => EndOfInput
  | s :: rest =>
      if decide (s = ""%string) then Read default rest
      else match py_float s with
           | Some q => Read q rest
           | None => BadNumber rest
           end
  end.

(** The body of the loop of [main] in LensSystem.py.  The lists are
    appended to in place, so what was appended before a [ValueError] stays
    appended when the loop goes on.  [1e-6] is the binary64 number
    4722366482869645 / 2^72. *)
Definition read_lens (st : entered) (inp : list string) : step entered :=
  match input_float inp with
  | EndOfInput => Stop EOFError
  | BadNumber rest => Continue st rest
  | Read f rest =>
      if decide (f = 0) then Break st rest
      else
        let fs := entered_focal_lengths st ++ [f] in
        let ms := entered_materials st in
        match (if decide (1 < length fs)%nat
               then match input_float rest with
                    | Read d rest => Read (entered_distances st ++ [d]) rest
                    | BadNumber rest => BadNumber rest
                    | EndOfInput => EndOfInput
                    end
               else Read (entered_distances st) rest) with
        | EndOfInput => Stop EOFError
        | BadNumber rest => Continue (Entered fs (entered_distances st) ms) rest
        | Read ds rest =>
            match input_float_or (lit (3 # 2)) rest with
            | EndOfInput => Stop EOFError
            | BadNumber rest => Continue (Entered fs ds ms) rest
            | Read n rest =>
                match input_float_or 1 rest with
                | EndOfInput => Stop EOFError
                | BadNumber rest => Continue (Entered fs ds ms) rest
                | Read x rest =>
                    let dn_dt :=
                      x * lit (4722366482869645 # 4722366482869645213696) in
                    Continue
                      (Entered fs ds (ms ++ [OpticalMaterial_init n dn_dt]))
                      rest
                end
            end
        end
  end.

(** The loop of [main] in LensSystem.py, from the three empty lists. *)
Definition read_lenses (inp : list string) : option (finish entered) :=
  while_true read_lens (Entered [] [] []) inp.

(** [system = LensSystem(focal_lengths, distances, materials)] *)
Definition entered_system (st : entered) : LensSystem :=
  LensSystem_init (entered_focal_lengths st) (entered_distances st)
    (entered_materials st).

End Console.

(** A reader of a few numerals, for worked examples. *)
Definition example_float (s : string) : option Qc :=
  if decide (s = "0"%string) then Some 0
  else if decide (s = "2"%string) then Some (lit 2)
  else if decide (s = "4"%string) then Some (lit 4)
  else if decide (s = "10"%string) then Some (lit 10)
  else if decide (s = "1.5"%string) then Some (lit (3 # 2))
  else None.

(** **** Formulas used in the statements *)

(** d_0 + ... + d_{k-1} *)
Definition qsum (xs : list Qc) : Qc := foldr Qcplus 0 xs.

(** P_i = [[1, d_i], [0, 1]] if i < K, the identity otherwise. *)
Definition spec_P (ds : list Qc) (i : nat) : mat2 :=
  match ds !! i with
  | Some d => Mat2 1 d 0 1
  | None => Mat2 1 0 0 1
  end.

(** A lens with a non-zero focal length. *)
Definition nonzero_focal (lens : Lens) : Prop := focal_length lens <> 0.

(** A lens with focal length zero. *)
Definition zero_focal (lens : Lens) : Prop := focal_length lens = 0.

(** Total optical power, the sum of 1/f_i. *)
Definition total_power (lenses : list Lens) : Qc :=
  qsum ((fun lens => 1 / focal_length lens) <$> lenses).

(** Uniform sampling of [lo, hi] with [n] samples. *)
Definition uniform_sampling (lo hi : Qc) (n : nat) : list Qc :=
  (fun j : nat =>
     lo + (hi - lo) * Qc_of_Z (Z.of_nat j) / Qc_of_Z (Z.of_nat n - 1))
  <$> seq 0 n.

(** [self.distances = ds] *)
Definition set_distances (ds : list Qc) (self : LensSystem) : LensSystem :=
  mkLensSystem (focal_lengths self) ds (materials self) (temperature self).

(** The loop [for T in temps] of [plot_system_analysis], started with the
    list [focal_shifts] collected so far: each temperature is written to
    the system, as the [float64] that iterating over an ndarray yields, and
    the effective focal length is read at it.  The result comes with the
    system as the loop leaves it. *)
Fixpoint temperature_sweep (temps : list Qc) (lens_system : LensSystem)
    (focal_shifts : list Qc) : outcome (list Qc) * LensSystem :=
  match temps with
  | [] => (Ok focal_shifts, lens_system)
  | T :: rest =>
      let lens_system := set_temperature (Scalar NpFloat64 T) lens_system in
      match M ← transfer_matrix lens_system; effective_focal_length M with
      | Ok f => temperature_sweep rest lens_system (focal_shifts ++ [f])
      | Raise e => (Raise e, lens_system)
      | NonFinite => (NonFinite, lens_system)
      end
  end.


(** *** The binary64 model

    The same classes over IEEE binary64 numbers: every [+], [-], [*] and
    [/] rounds to nearest, ties to even, and overflows, underflows and
    produces infinities and NaN as the hardware does.  numpy's [@] on 2x2
    arrays is the row-by-column product, each product and sum rounded.
    Integers of the source that meet floats ([0] in [z = 0], in [sum] and
    in [return 0]) are the floats they are converted to. *)
Module B64.
Local Open Scope float_scope.

(** Outcome of running a piece of Python code: numpy's divisions raise
    nothing, so a call returns or raises. *)
Inductive outcome (A : Type) : Type :=
| Ok (a : A)
| Raise (e : exn).

Arguments Ok {A} a.
Arguments Raise {A} e.

#[global] Instance outcome_ret : MRet outcome := fun _ a => Ok a.

#[global] Instance outcome_bind : MBind outcome := fun _ _ k c =>
  match c with
  | Ok a => k a
  | Raise e => Raise e
  end.

#[global] Instance float_eq_dec : EqDecision float.
Proof.
  intros x y. destruct (Leibniz.eqb x y) eqn:E.
  - left. by apply Leibniz.eqb_spec.
  - right. intros H. apply Leibniz.eqb_spec in H. congruence.
Defined.

#[global] Instance outcome_eq_dec {A : Type} `{EqDecision A} :
  EqDecision (outcome A).
Proof. solve_decision. Defined.

(** [x / y] on two Python floats. *)
Definition py_truediv (x y : float) : outcome float :=
  if y =? 0 then Raise ZeroDivisionError else Ok (x / y).

Record scalar : Type := Scalar {
  scalar_kind : float_kind;
  scalar_value : float
}.

(** [x / y] where the operands are of kind [kd]: with a numpy [float64]
    the quotient is the IEEE one, an infinity or NaN at a zero divisor. *)
Definition truediv (kd : float_kind) (x y : float) : outcome float :=
  match kd with
  | PyFloat => py_truediv x y
  | NpFloat64 => Ok (x / y)
  end.

(** [l[i]] for a non-negative index. *)
Definition py_getitem {A : Type} (l : list A) (i : nat) : outcome A :=
  match l !! i with
  | Some a => Ok a
  | None => Raise IndexError
  end.

(** [sum(g(x) for x in xs)]: the generator is consumed left to right and
    each item is added to the running total, which starts at [0]. *)
Fixpoint py_sum_from {A : Type} (g : A -> outcome float) (xs : list A)
    (acc : float) : outcome float :=
  match xs with
  | [] => Ok acc
  | x :: rest => v ← g x; py_sum_from g rest (acc + v)
  end.

Definition py_sum {A : Type} (g : A -> outcome float) (xs : list A)
  : outcome float :=
  py_sum_from g xs 0.

(** 2x2 ndarrays, row major. *)
Record mat2 : Type := Mat2 {
  m00 : float; m01 : float;
  m10 : float; m11 : float
}.

Definition np_eye2 : mat2 := Mat2 1 0 0 1.

Definition matmul (A B : mat2) : mat2 :=
  Mat2 (m00 A * m00 B + m01 A * m10 B) (m00 A * m01 B + m01 A * m11 B)
       (m10 A * m00 B + m11 A * m10 B) (m10 A * m01 B + m11 A * m11 B).

Infix "@@" := matmul (at level 40, left associativity) : float_scope.

Definition matvec (M : mat2) (v : float * float) : float * float :=
  (m00 M * v.1 + m01 M * v.2, m10 M * v.1 + m11 M * v.2).

(** class OpticalMaterial *)
Record OpticalMaterial : Type := mkOpticalMaterial {
  n0 : float;
  dn_dT : float;
  reference_temp : float
}.

Definition OpticalMaterial_init (n0 dn_dT : float) : OpticalMaterial :=
  mkOpticalMaterial n0 dn_dT 20.

Definition get_n (self : OpticalMaterial) (T : float) : float :=
  n0 self + dn_dT self * (T - reference_temp self).

(** class LensSystem *)
Record LensSystem : Type := mkLensSystem {
  focal_lengths : list float;
  distances : list float;
  materials : list OpticalMaterial;
  temperature : scalar
}.

Definition LensSystem_init (focal_lengths distances : list float)
    (materials : list OpticalMaterial) : LensSystem :=
  mkLensSystem focal_lengths distances materials (Scalar PyFloat 20).

#[global] Instance scalar_eq_dec : EqDecision scalar.
Proof. solve_decision. Defined.

#[global] Instance mat2_eq_dec : EqDecision mat2.
Proof. solve_decision. Defined.

#[global] Instance OpticalMaterial_eq_dec : EqDecision OpticalMaterial.
Proof. solve_decision. Defined.

#[global] Instance LensSystem_eq_dec : EqDecision LensSystem.
Proof. solve_decision. Defined.

(** [lens_system.temperature = T] *)
Definition set_temperature (T : scalar) (self : LensSystem) : LensSystem :=
  mkLensSystem (focal_lengths self) (distances self) (materials self) T.

Fixpoint transfer_matrix_loop (self : LensSystem) (i : nat) (fs : list float)
    (M : mat2) : outcome mat2 :=
  match fs with
  | [] => Ok M
  | f :: rest =>
      P ← (if decide (i < length (distances self))%nat
           then d ← py_getitem (distances self) i; Ok (Mat2 1 d 0 1)
           else Ok np_eye2);
      mat ← py_getitem (materials self) i;
      let n := get_n mat (scalar_value (temperature self)) in
      l ← truediv (scalar_kind (temperature self)) (- 1) (f * n);
      let L := Mat2 1 0 l 1 in
      transfer_matrix_loop self (S i) rest (M @@ P @@ L)
  end.

Definition transfer_matrix (self : LensSystem) : outcome mat2 :=
  transfer_matrix_loop self 0 (focal_lengths self) np_eye2.

(** The readout [-1/M[1,0]]; [M[1,0]] is a numpy scalar. *)
Definition effective_focal_length (M : mat2) : float := - 1 / m10 M.

(** class RayTracer *)
Fixpoint trace_ray_loop (ds : list float) (z : float) (ray0 : float)
    (positions : list (float * float)) : list (float * float) :=
  match ds with
  | [] => positions
  | d :: rest =>
      let z := z + d in
      trace_ray_loop rest z ray0 (positions ++ [(z, ray0)])
  end.

Definition trace_ray (lens_system : LensSystem) (y0 theta0 : float)
  : outcome (list (float * float)) :=
  let ray := (y0, theta0) in
  let positions := [(0, y0)] in
  let z := 0 in
  M ← transfer_matrix lens_system;
  let ray := matvec M ray in
  Ok (trace_ray_loop (distances lens_system) z ray.1 positions).

(** class OpticalSystemOptimizer *)
Definition optimize_focal_length (lens_system : LensSystem) (target_f : float)
  : outcome (list float) :=
  M ← transfer_matrix lens_system;
  let current_f := - 1 / m10 M in
  let scale := target_f / current_f in
  let new_distances := (fun d => d * scale) <$> distances lens_system in
  Ok new_distances.

(** The loop [for T in temps] of [plot_system_analysis], started with the
    list [focal_shifts] collected so far; the result comes with the system
    as the loop leaves it. *)
Fixpoint temperature_sweep (temps : list float) (lens_system : LensSystem)
    (focal_shifts : list float) : outcome (list float) * LensSystem :=
  match temps with
  | [] => (Ok focal_shifts, lens_system)
  | T :: rest =>
      let lens_system := set_temperature (Scalar NpFloat64 T) lens_system in
      match transfer_matrix lens_system with
      | Ok M =>
          temperature_sweep rest lens_system (focal_shifts ++ [- 1 / m10 M])
      | Raise e => (Raise e, lens_system)
      end
  end.

(** The reading the loop takes at temperature [T]. *)
Definition readout_at (lens_system : LensSystem) (T : float) : outcome float :=
  M ← transfer_matrix (set_temperature (Scalar NpFloat64 T) lens_system);
  Ok (- 1 / m10 M).

(** The float of a small non-negative integer. *)
Definition of_nat (i : nat) : float :=
  of_uint63 (Uint63Axioms.of_Z (Z.of_nat i)).

(** [np.linspace(start, stop, num)]: numpy multiplies [arange(0, num)] by
    the step (stop - start)/(num - 1), adds [start], and then writes
    [stop] over the last sample; a negative [num] is refused. *)
Definition np_linspace (start stop : float) (num : Z) : outcome (list float) :=
  if decide (num < 0)%Z then Raise ValueError
  else
    let n := Z.to_nat num in
    let div := of_nat (n - 1) in
    let delta := stop - start in
    let y := of_nat <$> seq 0 n in
    let y :=
      if decide (1 < num)%Z
      then let step := delta / div in
           if step =? 0 then (fun v => v / div * delta) <$> y
           else (fun v => v * step) <$> y
      else (fun v => v * delta) <$> y in
    let y := (fun v => v + start) <$> y in
    Ok (if decide (1 < num)%Z then <[(n - 1)%nat := stop]> y else y).

(** [temps = np.linspace(0, 40, 100)] and the loop over it. *)
Definition temperature_effects (lens_system : LensSystem)
  : outcome (list float) * LensSystem :=
  match np_linspace 0 40 100 with
  | Ok temps => temperature_sweep temps lens_system []
  | Raise e => (Raise e, lens_system)
  end.

(** class Lens and the two combinations of class LensCalculator *)
Record Lens : Type := mkLens {
  focal_length : float;
  lens_type : LensType;
  diameter : float;
  refractive_index : float;
  dispersion : float
}.

Definition Lens_init (focal_length : float) (lens_type : LensType)
    (diameter : float) : Lens :=
  mkLens focal_length lens_type diameter 1.5 0.02.

Definition series_focal_length (lenses : list Lens) : outcome float :=
  match lenses with
  | [] => Ok 0
  | _ =>
      total_power ←
        py_sum (fun lens => py_truediv 1 (focal_length lens)) lenses;
      if negb (total_power =? 0) then py_truediv 1 total_power
      else Ok infinity
  end.

Definition parallel_focal_length (lenses : list Lens) : outcome float :=
  py_sum (fun lens => Ok (focal_length lens)) lenses.

(** What [draw_ray_diagram] computes and decides; the matplotlib calls
    around it are left out.  The image arrow is drawn for a converging
    lens only, solid for a real image ([image_distance > 0]) and dotted
    for a virtual one. *)
Inductive image_kind : Type := RealImage | VirtualImage.

Record ray_diagram : Type := mkRayDiagram {
  image_distance : float;
  magnification : float;
  image_arrow : option image_kind
}.


#[global] Instance image_kind_eq_dec : EqDecision image_kind.
Proof. solve_decision. Defined.

#[global] Instance ray_diagram_eq_dec : EqDecision ray_diagram.
Proof. solve_decision. Defined.

(** The rational number a finite binary64 value stands for. *)
Definition exact (x : float) : Qc :=
  match Prim2SF x with
  | S754_finite s m e =>
      let v := if decide (0 <= e)%Z
               then Qc_of_Z (Z.pos m * 2 ^ e)
               else (Qc_of_Z (Z.pos m) / Qc_of_Z (2 ^ (- e)))%Qc in
      if s then (- v)%Qc else v
  | _ => 0%Qc
  end.


(** **** Formulas used in the statements *)

Definition spec_P (ds : list float) (i : nat) : mat2 :=
  match ds !! i with
  | Some d => Mat2 1 d 0 1
  | None => Mat2 1 0 0 1
  end.

Definition spec_L (f n : float) : mat2 := Mat2 1 0 (- 1 / (f * n)) 1.

Definition spec_n (ms : list OpticalMaterial) (T : float) (i : nat) : float :=
  from_option (fun m => get_n m T) 0 (ms !! i).

(** One more lens in the order the code multiplies: (M P_i) L_i. *)
Definition code_step (fs ds : list float) (ms : list OpticalMaterial)
    (T : float) (M : mat2) (i : nat) : mat2 :=
  M @@ spec_P ds i @@ spec_L (default 0 (fs !! i)) (spec_n ms T i).

Definition code_product (fs ds : list float) (ms : list OpticalMaterial)
    (T : float) : mat2 :=
  foldl (code_step fs ds ms T) (Mat2 1 0 0 1) (seq 0 (length fs)).



(** The running total ((0 + x_0) + x_1) + ... *)
Definition running_sum (xs : list float) : float := foldl PrimFloat.add 0 xs.

(** A lens with a non-zero focal length. *)
Definition nonzero_focal (lens : Lens) : Prop :=
  (focal_length lens =? 0) = false.

(** The total power as the code computes it:
    ((0 + 1/f_1) + 1/f_2) + ... *)
Definition total_power (lenses : list Lens) : float :=
  foldl (fun acc lens => acc + 1 / focal_length lens) 0 lenses.



(** No division of Python floats meets a zero: either the temperature is a
    [float64], or every computed product f_i n_i of a lens that has a
    material is non-zero. *)
Definition nonzero_powers (self : LensSystem) : Prop :=
  scalar_kind (temperature self) = PyFloat ->
  forall i f m,
    focal_lengths self !! i = Some f -> materials self !! i = Some m ->
    (f * get_n m (scalar_value (temperature self)) =? 0) = false.

(** The system a completed loop over [temps] leaves behind. *)
Definition after_sweep (temps : list float) (lens_system : LensSystem)
  : LensSystem :=
  match last temps with
  | Some T => set_temperature (Scalar NpFloat64 T) lens_system
  | None => lens_system
  end.

(** **** Objects with identity

    [LensSystem.__init__] stores the three lists it is given, it does not
    copy them.  The store keeps each Python object under a reference, so
    that sharing and writes are visible. *)
Module Store.

Abbreviation ref := positive (only parsing).

Inductive object : Type :=
| FloatList (xs : list float)
| MaterialList (ms : list OpticalMaterial)
| LensSystemObj (focal_lengths distances materials : ref)
    (temperature : scalar).

Abbreviation store := (gmap ref object) (only parsing).

(** The values reachable from the LensSystem object at [r]. *)
Definition read_system (σ : store) (r : ref) : outcome LensSystem :=
  match σ !! r with
  | Some (LensSystemObj rf rd rm T) =>
      match σ !! rf, σ !! rd, σ !! rm with
      | Some (FloatList fs), Some (FloatList ds), Some (MaterialList ms) =>
          Ok (mkLensSystem fs ds ms T)
      | _, _, _ => Raise AttributeError
      end
  | _ => Raise AttributeError
  end.

(** A list display or comprehension creates a new list object. *)
Definition alloc (o : object) (σ : store) : ref * store :=
  let r := fresh (dom σ) in (r, <[r := o]> σ).

(** [OpticalSystemOptimizer.optimize_focal_length]: the result is the
    reference of the list built by the comprehension. *)
Definition optimize_focal_length (self_lens_system : ref) (target_f : float)
    (σ : store) : outcome ref * store :=
  match sys ← read_system σ self_lens_system;
        optimize_focal_length sys target_f with
  | Ok new_distances =>
      let '(r, σ') := alloc (FloatList new_distances) σ in (Ok r, σ')
  | Raise e => (Raise e, σ)
  end.

(** A store holding one two-lens system at reference 4. *)
Definition example_store : store :=
  {[ 1%positive := FloatList [2; 4];
     2%positive := FloatList [3];
     3%positive := MaterialList
                     [OpticalMaterial_init 1 0; OpticalMaterial_init 1 0];
     4%positive := LensSystemObj 1 2 3 (Scalar PyFloat 20) ]}.

End Store.

End B64.

(** ** Part II. Properties *)

(** *** Basic facts about the primitives *)

Lemma py_truediv_ok (x y : Qc) : y <> 0 -> py_truediv x y = Ok (x / y).
Proof. intros Hy. unfold py_truediv. by destruct (decide (y = 0)). Qed.

Lemma py_truediv_zero (x y : Qc) :
  y = 0 -> py_truediv x y = Raise ZeroDivisionError.
Proof. intros Hy. unfold py_truediv. by destruct (decide (y = 0)). Qed.

Lemma np_true_divide_ok (x y : Qc) : y <> 0 -> np_true_divide x y = Ok (x / y).
Proof. intros Hy. unfold np_true_divide. by destruct (decide (y = 0)). Qed.

Lemma truediv_ok (kd : float_kind) (x y : Qc) :
  y <> 0 -> truediv kd x y = Ok (x / y).
Proof.
  intros Hy. destruct kd; [by apply py_truediv_ok | by apply np_true_divide_ok].
Qed.

Lemma truediv_zero (kd : float_kind) (x y : Qc) :
  y = 0 -> truediv kd x y = division_fault kd.
Proof.
  intros Hy. destruct kd; [by apply py_truediv_zero|].
  unfold truediv, np_true_divide. by destruct (decide (y = 0)).
Qed.

Lemma py_getitem_Some {A : Type} (l : list A) (i : nat) (a : A) :
  l !! i = Some a -> py_getitem l i = Ok a.
Proof. intros H. unfold py_getitem. by rewrite H. Qed.

(** Closed equations between values are settled by evaluation. *)
Ltac by_evaluation :=
  match goal with
  | |- ?P => apply (bool_decide_unpack P); vm_compute; exact I
  end.

Lemma mat2_eq (a b c d a' b' c' d' : Qc) :
  a = a' -> b = b' -> c = c' -> d = d' -> Mat2 a b c d = Mat2 a' b' c' d'.
Proof. by intros -> -> -> ->. Qed.

Ltac mat2_ring := unfold matmul, np_eye2; simpl; apply mat2_eq; ring.
Lemma matmul_assoc (A B C : mat2) : A @@ B @@ C = A @@ (B @@ C).
Proof. destruct A, B, C. mat2_ring. Qed.

Lemma qsum_cons (x : Qc) (xs : list Qc) : qsum (x :: xs) = x + qsum xs.
Proof. reflexivity. Qed.


(** *** Binary64 arithmetic

    The facts about rounded operations that the statements below need,
    from the specification of the primitive floats. *)

Section FloatFacts.
Local Open Scope float_scope.

(** Comparing equal to zero: the number is one of the two zeros. *)
Lemma SFeqb_zero_r (x : spec_float) :
  SFeqb x (S754_zero false) = true <-> exists s, x = S754_zero s.
Proof.
  destruct x as [s|s| |s m e]; unfold SFeqb; simpl.
  - split; [eauto|done].
  - split; [by destruct s | by intros [? ?]].
  - split; [done | by intros [? ?]].
  - split; [by destruct s | by intros [? ?]].
Qed.

Lemma float_eqb_zero_SF (x : float) :
  (x =? 0) = true <-> exists s, Prim2SF x = S754_zero s.
Proof. rewrite FloatAxioms.eqb_spec. apply SFeqb_zero_r. Qed.

Lemma SFeqb_refl_finite (s : bool) (m : positive) (e : Z) :
  SFeqb (S754_finite s m e) (S754_finite s m e) = true.
Proof.
  unfold SFeqb, SFcompare. rewrite Z.compare_refl, Pos.compare_cont_refl.
  by destruct s.
Qed.

(** A finite number is a zero or has a mantissa and an exponent. *)
Lemma float_is_finite_SF (x : float) :
  is_finite x = true <->
  (exists s, Prim2SF x = S754_zero s) \/
  (exists s m e, Prim2SF x = S754_finite s m e).
Proof.
  unfold is_finite, is_nan, is_infinity.
  rewrite !FloatAxioms.eqb_spec, abs_spec.
  change (Prim2SF infinity) with (S754_infinity false).
  destruct (Prim2SF x) as [s|s| |s m e]; simpl.
  - split; [eauto|done].
  - split; [by destruct s | intros [[? ?]|(?&?&?&?)]; done].
  - split; [done | intros [[? ?]|(?&?&?&?)]; done].
  - rewrite SFeqb_refl_finite. simpl. split; [eauto 6|done].
Qed.



Lemma SFmul_comm (x y : spec_float) : SF64mul x y = SF64mul y x.
Proof.
  destruct x as [sx|sx| |sx mx ex], y as [sy|sy| |sy my ey];
    unfold SF64mul, SFmul;
    rewrite ?(xorb_comm sx sy), ?(Pos.mul_comm mx my), ?(Z.add_comm ex ey);
    reflexivity.
Qed.

Lemma float_mul_comm (x y : float) : x * y = y * x.
Proof. apply Prim2SF_inj. rewrite !mul_spec. apply SFmul_comm. Qed.


(** The product of a zero and a finite number is a zero. *)
Lemma float_mul_zero_finite (z x : float) :
  (z =? 0) = true -> is_finite x = true -> (z * x =? 0) = true.
Proof.
  rewrite !float_eqb_zero_SF, float_is_finite_SF, mul_spec.
  intros [sz ->] [[s ->]|(s & m & e & ->)]; simpl; eauto.
Qed.










(** x / 0 is an infinity for finite x other than zero. *)
Lemma float_div_zero_infinite (x y : float) :
  (y =? 0) = true -> is_finite x = true -> (x =? 0) = false ->
  is_infinity (x / y) = true.
Proof.
  intros Hy Hx Hnz. unfold is_infinity.
  rewrite FloatAxioms.eqb_spec, abs_spec, div_spec.
  change (Prim2SF infinity) with (S754_infinity false).
  apply float_eqb_zero_SF in Hy as [sy ->].
  apply float_is_finite_SF in Hx as [[s E]|(s & m & e & ->)].
  - assert ((x =? 0) = true) by (apply float_eqb_zero_SF; eauto). congruence.
  - reflexivity.
Qed.


(** A finite number divided by an infinity is a zero. *)
Lemma float_div_infinite_zero (x y : float) :
  is_finite x = true -> is_infinity y = true -> (x / y =? 0) = true.
Proof.
  unfold is_infinity. intros Hx Hy.
  apply float_is_finite_SF in Hx. apply float_eqb_zero_SF.
  rewrite FloatAxioms.eqb_spec, abs_spec in Hy. rewrite div_spec.
  change (Prim2SF infinity) with (S754_infinity false) in Hy.
  destruct (Prim2SF y) as [sy|sy| |sy my ey]; try (by destruct sy); try done.
  destruct Hx as [[s ->]|(s & m & e & ->)]; simpl; eauto.
Qed.




End FloatFacts.

(** *** LensSystem.transfer_matrix *)

Section TransferMatrix.
Variable self : LensSystem.

Let fs := focal_lengths self.
Let ds := distances self.
Let ms := materials self.
Let T := scalar_value (temperature self).

(** The propagation matrix chosen by the guard [i < len(self.distances)]. *)
Lemma propagation_spec (i : nat) :
  (if decide (i < length ds)%nat
   then d ← py_getitem ds i; Ok (Mat2 1 d 0 1)
   else Ok np_eye2) = Ok (spec_P ds i).
Proof.
  unfold spec_P. destruct (decide (i < length ds)%nat) as [Hlt|Hge].
  - destruct (lookup_lt_is_Some_2 ds i Hlt) as [d Hd].
    by rewrite (py_getitem_Some _ _ _ Hd), Hd.
  - by rewrite (lookup_ge_None_2 ds i) by lia.
Qed.

End TransferMatrix.

(** C10: with no focal lengths the loop body never runs and the result is
    the identity, whatever the distances, materials and temperature are. *)
Theorem transfer_matrix_no_lens (ds : list Qc) (ms : list OpticalMaterial)
    (T : scalar) :
  transfer_matrix (mkLensSystem [] ds ms T) = Ok (Mat2 1 0 0 1).
Proof. reflexivity. Qed.

(** In binary64: *)

Section B64Primitives.
Import B64.
Local Open Scope float_scope.

Lemma b64_py_getitem_Some {A : Type} (l : list A) (i : nat) (a : A) :
  l !! i = Some a -> py_getitem l i = Ok a.
Proof. intros H. unfold py_getitem. by rewrite H. Qed.

Lemma b64_py_getitem_None {A : Type} (l : list A) (i : nat) :
  l !! i = None -> py_getitem l i = Raise IndexError.
Proof. intros H. unfold py_getitem. by rewrite H. Qed.

Lemma b64_truediv_ok (kd : float_kind) (x y : float) :
  (kd = PyFloat -> (y =? 0) = false) -> truediv kd x y = Ok (x / y).
Proof.
  intros Hy. destruct kd; [|done]. unfold truediv, py_truediv.
  by rewrite Hy.
Qed.



End B64Primitives.

Section B64TransferMatrix.
Import B64.
Local Open Scope float_scope.
Variable self : LensSystem.

Let fs := focal_lengths self.
Let ds := distances self.
Let ms := materials self.
Let T := scalar_value (temperature self).

(** The propagation matrix chosen by the guard [i < len(self.distances)]. *)
Lemma b64_propagation_spec (i : nat) :
  (if decide (i < length ds)%nat
   then d ← py_getitem ds i; Ok (Mat2 1 d 0 1)
   else Ok np_eye2) = Ok (spec_P ds i).
Proof.
  unfold spec_P. destruct (decide (i < length ds)%nat) as [Hlt|Hge].
  - destruct (lookup_lt_is_Some_2 ds i Hlt) as [d Hd].
    by rewrite (b64_py_getitem_Some _ _ _ Hd), Hd.
  - by rewrite (lookup_ge_None_2 ds i) by lia.
Qed.

(** One pass of the loop with the material of lens [i] at hand. *)
Lemma b64_transfer_matrix_loop_cons (i : nat) (f : float) (rest : list float)
    (M : mat2) (m : OpticalMaterial) :
  ms !! i = Some m ->
  transfer_matrix_loop self i (f :: rest) M
  = l ← truediv (scalar_kind (temperature self)) (- 1) (f * get_n m T);
    transfer_matrix_loop self (S i) rest (M @@ spec_P ds i @@ Mat2 1 0 l 1).
Proof.
  intros Hm. cbn [transfer_matrix_loop]. fold ds ms T.
  rewrite b64_propagation_spec. cbn [mbind outcome_bind].
  by rewrite (b64_py_getitem_Some _ _ _ Hm).
Qed.

(** A lens without a material ends the loop in [IndexError]. *)
Lemma b64_transfer_matrix_loop_no_material (i : nat) (f : float)
    (rest : list float) (M : mat2) :
  ms !! i = None ->
  transfer_matrix_loop self i (f :: rest) M = Raise IndexError.
Proof.
  intros Hm. cbn [transfer_matrix_loop]. fold ds ms T.
  rewrite b64_propagation_spec. cbn [mbind outcome_bind].
  by rewrite (b64_py_getitem_None _ _ Hm).
Qed.

(** With every division defined, the loop from index [i] is a left fold of
    [code_step]. *)
Lemma b64_transfer_matrix_loop_fold (rest : list float) :
  (length fs <= length ms)%nat ->
  nonzero_powers self ->
  forall (i : nat) (M : mat2),
    drop i fs = rest ->
    transfer_matrix_loop self i rest M
    = Ok (foldl (code_step fs ds ms T) M (seq i (length rest))).
Proof.
  intros Hlen Hnz. induction rest as [|f rest IH]; intros i M Hdrop.
  - reflexivity.
  - assert (Hf : fs !! i = Some f).
    { rewrite <- (Nat.add_0_r i), <- lookup_drop, Hdrop. reflexivity. }
    assert (Hi : (i < length ms)%nat).
    { apply lookup_lt_Some in Hf. unfold fs, ms in *. lia. }
    destruct (lookup_lt_is_Some_2 ms i Hi) as [m Hm].
    rewrite (b64_transfer_matrix_loop_cons _ _ _ _ _ Hm).
    rewrite b64_truediv_ok by (intros Hk; by apply (Hnz Hk i f m)).
    cbn [mbind outcome_bind]. rewrite IH.
    + cbn [length seq foldl]. do 2 f_equal.
      unfold code_step, spec_L, spec_n. by rewrite Hf, Hm.
    + rewrite (drop_S _ _ _ Hf) in Hdrop. congruence.
Qed.



End B64TransferMatrix.

Lemma b64_transfer_matrix_fold (self : B64.LensSystem) :
  (length (B64.focal_lengths self) <= length (B64.materials self))%nat ->
  B64.nonzero_powers self ->
  B64.transfer_matrix self
  = B64.Ok (B64.code_product (B64.focal_lengths self) (B64.distances self)
              (B64.materials self)
              (B64.scalar_value (B64.temperature self))).
Proof.
  intros Hlen Hnz. unfold B64.transfer_matrix, B64.code_product.
  by apply b64_transfer_matrix_loop_fold.
Qed.



Section B64SingleLens.
Import B64.
Local Open Scope float_scope.



End B64SingleLens.





(** *** OpticalMaterial.get_n *)

(** C6: [get_n] is the linear law n0 + dn_dT (T - 20) at every [T], and the
    reference temperature 20 gives back [n0]. *)
Theorem get_n_linear (n dn T : Qc) :
  get_n (OpticalMaterial_init n dn) T = n + dn * (T - lit 20) /\
  get_n (OpticalMaterial_init n dn) (lit 20) = n.
Proof.
  split; [reflexivity|]. unfold get_n, OpticalMaterial_init.
  cbn [n0 dn_dT reference_temp]. ring.
Qed.

(** *** LensCalculator *)

Lemma py_sum_powers (lenses : list Lens) (acc : Qc) :
  Forall nonzero_focal lenses ->
  py_sum_from (fun lens => py_truediv 1 (focal_length lens)) lenses acc
  = Ok (acc + total_power lenses).
Proof.
  intros Hnz. revert acc.
  induction Hnz as [|lens lenses Hlens _ IH]; intros acc; simpl.
  - f_equal. unfold total_power. simpl. ring.
  - rewrite (py_truediv_ok _ _ Hlens). simpl. rewrite IH. f_equal.
    unfold total_power. rewrite fmap_cons, qsum_cons. ring.
Qed.

Lemma series_focal_length_cases (lenses : list Lens) :
  lenses <> [] -> Forall nonzero_focal lenses ->
  series_focal_length lenses
  = if decide (total_power lenses <> 0)
    then Ok (Finite (1 / total_power lenses))
    else Ok PosInf.
Proof.
  intros Hne Hnz. destruct lenses as [|lens lenses]; [done|].
  unfold series_focal_length, py_sum. rewrite (py_sum_powers _ _ Hnz).
  simpl. rewrite Qcplus_0_l.
  destruct (decide (total_power (lens :: lenses) <> 0)) as [Hp|Hp]; [|done].
  by rewrite (py_truediv_ok _ _ Hp).
Qed.

Section B64Combinations.
Import B64.
Local Open Scope float_scope.




End B64Combinations.






(** *** RayTracer.trace_ray *)

Section B64TraceRay.
Import B64.
Local Open Scope float_scope.

(** The walk over the distances appends one pair per distance, each with
    the running coordinate and the same height. *)
Lemma b64_trace_ray_loop_spec (ds : list float) (y : float) :
  forall (z : float) (positions : list (float * float)),
    trace_ray_loop ds z y positions
    = positions
      ++ ((fun j : nat => (foldl PrimFloat.add z (take j ds), y))
          <$> seq 1 (length ds)).
Proof.
  induction ds as [|d ds IH]; intros z positions.
  - simpl. by rewrite app_nil_r.
  - cbn [trace_ray_loop length seq fmap list_fmap].
    rewrite IH, <- app_assoc. cbn [app]. do 2 f_equal.
    rewrite <- (fmap_S_seq 1), <- list_fmap_compose. done.
Qed.

Lemma b64_trace_ray_closed_form (lens_system : LensSystem) (y0 theta0 : float)
    (M : mat2) :
  transfer_matrix lens_system = Ok M ->
  trace_ray lens_system y0 theta0
  = Ok ((0, y0)
        :: ((fun j : nat =>
               (running_sum (take j (distances lens_system)),
                m00 M * y0 + m01 M * theta0))
            <$> seq 1 (length (distances lens_system)))).
Proof.
  intros HM. unfold trace_ray. rewrite HM. cbn [mbind outcome_bind].
  by rewrite b64_trace_ray_loop_spec.
Qed.
End B64TraceRay.

(** C3, as stated, is refuted: a system with a lens that has no material
    makes [trace_ray] raise [IndexError], so no list is returned; and for
    the distances 1e16, 1, 1 the last coordinate is 1e16 while
    d_0 + d_1 + d_2 is 10000000000000002. *)
Lemma trace_ray_positions_counterexample :
  B64.trace_ray (B64.LensSystem_init [2%float] [] []) 1 0
  = B64.Raise IndexError /\
  B64.trace_ray (B64.LensSystem_init [] [1e16%float; 1%float; 1%float] []) 1 0
  = B64.Ok [(0%float, 1%float); (1e16%float, 1%float); (1e16%float, 1%float);
            (1e16%float, 1%float)] /\
  qsum (B64.exact <$> [1e16%float; 1%float; 1%float])
  = Qc_of_Z 10000000000000002 /\
  B64.exact 1e16 <> Qc_of_Z 10000000000000002.
Proof. split_and!; by_evaluation. Qed.

(** C3 (amended): [trace_ray] computes the system matrix once and raises
    what that computation raises; with the matrix [M] it returns
    len(distances)+1 pairs, the first (0, y0) and the k-th, k >= 1,
    (z_k, y_out) with z_k the running total ((0 + d_0) + d_1) + ... of the
    first k distances, added left to right with every sum rounded, and
    y_out the first component of M [y0, theta0], the same at every
    position. *)
Theorem trace_ray_running_positions (lens_system : B64.LensSystem)
    (y0 theta0 : float) :
  (forall e, B64.transfer_matrix lens_system = B64.Raise e ->
             B64.trace_ray lens_system y0 theta0 = B64.Raise e) /\
  (forall M : B64.mat2,
      B64.transfer_matrix lens_system = B64.Ok M ->
      exists positions : list (float * float),
        B64.trace_ray lens_system y0 theta0 = B64.Ok positions /\
        length positions = S (length (B64.distances lens_system)) /\
        positions !! 0%nat = Some (0%float, y0) /\
        forall k : nat,
          (1 <= k <= length (B64.distances lens_system))%nat ->
          positions !! k
          = Some (B64.running_sum (take k (B64.distances lens_system)),
                  (B64.m00 M * y0 + B64.m01 M * theta0)%float)).
Proof.
  split.
  - intros e He. unfold B64.trace_ray. by rewrite He.
  - intros M HM. eexists.
    split; [by apply b64_trace_ray_closed_form|].
    split; [|split].
    + cbn [length]. by rewrite length_fmap, length_seq.
    + reflexivity.
    + intros [|k] Hk; [lia|].
      rewrite lookup_cons, list_lookup_fmap, lookup_seq_lt by lia.
      reflexivity.
Qed.

Lemma trace_ray_running_positions_witness :
  exists positions : list (float * float),
    B64.trace_ray
      (B64.LensSystem_init [2%float; 4%float] [3%float; 5%float]
         [B64.OpticalMaterial_init 1 0; B64.OpticalMaterial_init 1 0])
      1 0.1
    = B64.Ok positions /\
    length positions = 3%nat /\
    positions !! 2%nat
    = Some (8%float, (-0.625 * 1 + 0.5 * 0.1)%float).
Proof.
  destruct
    (proj2 (trace_ray_running_positions
       (B64.LensSystem_init [2%float; 4%float] [3%float; 5%float]
          [B64.OpticalMaterial_init 1 0; B64.OpticalMaterial_init 1 0])
       1 0.1)
       (B64.Mat2 (-0.625) 0.5 (-0.125) (-1.5)))
    as (positions & Hrun & Hlen & _ & Hk).
  - reflexivity.
  - exists positions. split; [done|]. split; [done|].
    apply (Hk 2%nat). simpl. lia.
Defined.

(** *** OpticalSystemOptimizer.optimize_focal_length *)




(** *** WaveOpticsCalculator.calculate_diffraction *)

Lemma np_map_total (g : Qc -> outcome Qc) (h : Qc -> Qc) (xs : list Qc) :
  (forall x, g x = Ok (h x)) -> np_map g xs = Ok (h <$> xs).
Proof.
  intros Hg. induction xs as [|x xs IH]; [done|].
  cbn [np_map]. by rewrite Hg, IH.
Qed.

Lemma np_linspace_uniform (start stop : Qc) (num : Z) :
  (0 <= num)%Z ->
  np_linspace start stop num
  = Ok (uniform_sampling start stop (Z.to_nat num)).
Proof.
  intros Hnum. unfold np_linspace, uniform_sampling.
  destruct (decide (num < 0)%Z) as [Hneg|_]; [lia|].
  rewrite Z2Nat.id by done. f_equal.
  apply list_fmap_ext. intros _ j _. unfold Qcdiv. ring.
Qed.

Lemma uniform_sampling_length (lo hi : Qc) (n : nat) :
  length (uniform_sampling lo hi n) = n.
Proof. unfold uniform_sampling. by rewrite length_fmap, length_seq. Qed.

(** C8: for a wave built from [wavelength], a distance D <> 0 and a sample
    count points >= 0, [calculate_diffraction] returns (r, I): r samples
    [0, 10 a] uniformly with [points] samples, and I is
    (a J0(k a r / D))^2 elementwise with k = 2 pi / wavelength.  The
    function reads nothing but its arguments and writes nothing, so equal
    inputs give equal outputs.  (A negative [points] is no sample count:
    [np.linspace] refuses it.) *)
Theorem calculate_diffraction_spec (j0 : Qc -> Qc) (wavelength : Qc)
    (wave : WaveProperties) (a D : Qc) (points : Z) :
  WaveProperties_init wavelength = Ok wave ->
  D <> 0 ->
  ((0 <= points)%Z ->
   let r := uniform_sampling 0 (lit 10 * a) (Z.to_nat points) in
   let wave_number := lit 2 * np_pi / wavelength in
   calculate_diffraction j0 wave a D points
   = Ok (r, (fun ri => (a * j0 (wave_number * a * ri / D)) ^ 2) <$> r) /\
   length r = Z.to_nat points) /\
  ((points < 0)%Z ->
   calculate_diffraction j0 wave a D points = Raise ValueError).
Proof.
  intros Hwave HD. split; [|intros Hneg; unfold calculate_diffraction,
    np_linspace; by destruct (decide (points < 0)%Z)].
  intros Hpoints r wave_number.
  split; [|apply uniform_sampling_length].
  assert (Hk : k wave = wave_number).
  { unfold WaveProperties_init, py_truediv in Hwave.
    destruct (decide (wavelength = 0)); [done|].
    cbn [mbind outcome_bind] in Hwave. by injection Hwave as <-. }
  unfold calculate_diffraction.
  rewrite (np_linspace_uniform _ _ _ Hpoints). cbn [mbind outcome_bind].
  replace (a * lit 10) with (lit 10 * a) by ring. fold r.
  rewrite (np_map_total _
             (fun ri => (a * j0 (wave_number * a * ri / D)) ^ 2)); [done|].
  intros x. rewrite (np_true_divide_ok _ _ HD). by rewrite Hk.
Qed.

Lemma calculate_diffraction_spec_witness :
  exists wave : WaveProperties,
    WaveProperties_init (lit (11 # 20000000)) = Ok wave /\
    calculate_diffraction (fun x => 1 - x * x / lit 4) wave
      (lit (1 # 1000)) 1 3
    = Ok (uniform_sampling 0 (lit 10 * lit (1 # 1000)) 3,
          (fun ri =>
             (lit (1 # 1000)
              * (fun x => 1 - x * x / lit 4)
                  (lit 2 * np_pi / lit (11 # 20000000)
                   * lit (1 # 1000) * ri / 1)) ^ 2)
          <$> uniform_sampling 0 (lit 10 * lit (1 # 1000)) 3).
Proof.
  eexists. split; [reflexivity|].
  apply (calculate_diffraction_spec (fun x => 1 - x * x / lit 4)
           (lit (11 # 20000000)) _ (lit (1 # 1000)) 1 3);
    [reflexivity | done | lia].
Defined.

(** *** The optimizer on the object store *)

Section StoreFrame.
Import B64 B64.Store.

Lemma alloc_fresh (o : object) (σ : store) :
  σ !! (alloc o σ).1 = None.
Proof. apply not_elem_of_dom, is_fresh. Qed.

Lemma alloc_lookup_old (o o' : object) (σ : store) (l : ref) :
  σ !! l = Some o' -> (alloc o σ).2 !! l = Some o'.
Proof.
  intros Hl. pose proof (alloc_fresh o σ) as Hf. unfold alloc in *.
  cbn zeta beta iota delta [fst snd] in *.
  rewrite lookup_insert_ne; [done | congruence].
Qed.

(** A store that keeps every object of [σ] shows the same system. *)
Lemma read_system_preserved (σ σ' : store) (r : ref) (sys : LensSystem) :
  (forall l o, σ !! l = Some o -> σ' !! l = Some o) ->
  read_system σ r = Ok sys -> read_system σ' r = Ok sys.
Proof.
  intros Hkeep. unfold read_system.
  destruct (σ !! r) as [[| |rf rd rm T]|] eqn:Hr; try done.
  destruct (σ !! rf) as [[fs| |]|] eqn:Hrf; try done.
  destruct (σ !! rd) as [[ds| |]|] eqn:Hrd; try done.
  destruct (σ !! rm) as [[|ms|]|] eqn:Hrm; try done.
  intros Hsys.
  by rewrite (Hkeep _ _ Hr), (Hkeep _ _ Hrf), (Hkeep _ _ Hrd),
    (Hkeep _ _ Hrm).
Qed.
End StoreFrame.

(** C9: on a store in which [r] is a LensSystem, the optimizer raises what
    [transfer_matrix] raises and leaves the store as it is; otherwise it
    returns a list object at a reference that was unused before the call,
    hence none of the system's own lists, holding every distance times
    target_f / current_f.  The store after the call is the store before it
    with that one object added: every object that was there is unchanged,
    and the system's focal lengths, distances, materials and temperature
    read the same. *)
Theorem optimize_focal_length_frame (σ : gmap positive B64.Store.object)
    (r : positive) (target_f : float) (sys : B64.LensSystem) :
  B64.Store.read_system σ r = B64.Ok sys ->
  (forall e,
      B64.transfer_matrix sys = B64.Raise e ->
      B64.Store.optimize_focal_length r target_f σ = (B64.Raise e, σ)) /\
  (forall M,
      B64.transfer_matrix sys = B64.Ok M ->
      exists (r_new : positive) (new_distances : list float),
        B64.Store.optimize_focal_length r target_f σ
        = (B64.Ok r_new, <[r_new := B64.Store.FloatList new_distances]> σ) /\
        σ !! r_new = None /\
        new_distances
        = (fun d => d * (target_f / (- 1 / B64.m10 M)))%float
          <$> B64.distances sys) /\
  (forall res σ',
      B64.Store.optimize_focal_length r target_f σ = (res, σ') ->
      (forall l o, σ !! l = Some o -> σ' !! l = Some o) /\
      B64.Store.read_system σ' r = B64.Ok sys).
Proof.
  intros Hsys.
  assert (Hraise : forall e,
             B64.transfer_matrix sys = B64.Raise e ->
             B64.Store.optimize_focal_length r target_f σ = (B64.Raise e, σ)).
  { intros e He. unfold B64.Store.optimize_focal_length.
    rewrite Hsys. cbn [mbind B64.outcome_bind].
    unfold B64.optimize_focal_length. by rewrite He. }
  assert (Hret : forall M,
             B64.transfer_matrix sys = B64.Ok M ->
             B64.Store.optimize_focal_length r target_f σ
             = (B64.Ok (fresh (dom σ)),
                <[fresh (dom σ) :=
                    B64.Store.FloatList
                      ((fun d => d * (target_f / (- 1 / B64.m10 M)))%float
                       <$> B64.distances sys)]> σ)).
  { intros M HM. unfold B64.Store.optimize_focal_length.
    rewrite Hsys. cbn [mbind B64.outcome_bind].
    unfold B64.optimize_focal_length. by rewrite HM. }
  split; [exact Hraise|]. split.
  - intros M HM. eexists _, _. split; [by apply Hret|].
    split; [|reflexivity]. apply not_elem_of_dom, is_fresh.
  - intros res σ' Hrun.
    assert (Hkeep : forall l o, σ !! l = Some o -> σ' !! l = Some o).
    { destruct (B64.transfer_matrix sys) as [M|e] eqn:HM.
      - rewrite (Hret M eq_refl) in Hrun. injection Hrun as <- <-.
        intros l o Hl.
        apply (alloc_lookup_old (B64.Store.FloatList _) o σ l Hl).
      - rewrite (Hraise e eq_refl) in Hrun. by injection Hrun as <- <-. }
    split; [exact Hkeep|]. by apply (read_system_preserved σ).
Qed.

Lemma optimize_focal_length_frame_witness :
  (exists (r_new : positive) (new_distances : list float),
      B64.Store.optimize_focal_length 4%positive 16 B64.Store.example_store
      = (B64.Ok r_new,
         <[r_new := B64.Store.FloatList new_distances]>
           B64.Store.example_store) /\
      B64.Store.example_store !! r_new = None /\
      new_distances = [(3 * (16 / (- 1 / -0.75)))%float]) /\
  B64.Store.read_system
    (B64.Store.optimize_focal_length 4%positive 16
       B64.Store.example_store).2
    4%positive
  = B64.Ok (B64.LensSystem_init [2%float; 4%float] [3%float]
              [B64.OpticalMaterial_init 1 0; B64.OpticalMaterial_init 1 0]).
Proof.
  pose proof (optimize_focal_length_frame B64.Store.example_store 4%positive
                16%float _ eq_refl) as (_ & Hret & Hframe).
  split.
  - apply (Hret (B64.Mat2 (-1.25) 3 (-0.75) 1) eq_refl).
  - apply (Hframe _ _ (surjective_pairing _)).
Defined.

(** *** Worked examples *)

Section Examples.
Let glass := OpticalMaterial_init 1 0.
Let two_lenses := LensSystem_init [lit 2; lit 4] [lit 3; lit 5] [glass; glass].

Example transfer_matrix_two_lenses :
  transfer_matrix two_lenses
  = Ok (Mat2 (lit (- 5 # 8)) (lit (1 # 2)) (lit (- 1 # 8)) (lit (- 3 # 2))).
Proof. by_evaluation. Qed.

Example effective_focal_length_two_lenses :
  (M ← transfer_matrix two_lenses; effective_focal_length M) = Ok (lit 8).
Proof. by_evaluation. Qed.

Example optimize_focal_length_two_lenses :
  optimize_focal_length two_lenses (lit 16) = Ok [lit 6; lit 10].
Proof. by_evaluation. Qed.

Example transfer_matrix_missing_material :
  transfer_matrix (LensSystem_init [lit 2; lit 4] [lit 3] [glass])
  = Raise IndexError.
Proof. by_evaluation. Qed.

Example series_zero_focal_length :
  series_focal_length
    [Lens_init (lit 10) CONVERGING (lit 5); Lens_init 0 CONVERGING (lit 5)]
  = Raise ZeroDivisionError.
Proof. by_evaluation. Qed.

Example linspace_five : np_linspace 0 (lit 10) 5
  = Ok [0; lit (5 # 2); lit 5; lit (15 # 2); lit 10].
Proof. by_evaluation. Qed.

Example linspace_negative : np_linspace 0 (lit 10) (- 1) = Raise ValueError.
Proof. by_evaluation. Qed.

Example diffraction_zero_distance :
  calculate_diffraction (fun x => 1 - x * x / lit 4)
    (mkWaveProperties 1 (lit 2 * np_pi) (lit 300000000 * (lit 2 * np_pi)))
    1 0 3
  = NonFinite.
Proof. by_evaluation. Qed.
End Examples.

Section B64Examples.
Import B64.
Local Open Scope float_scope.
Let glass := OpticalMaterial_init 1 0.

Example b64_transfer_matrix_two_lenses :
  transfer_matrix (LensSystem_init [2; 4] [3; 5] [glass; glass])
  = Ok (Mat2 (-0.625) 0.5 (-0.125) (-1.5)).
Proof. by_evaluation. Qed.

Example b64_transfer_matrix_rounds :
  transfer_matrix (LensSystem_init [3] [3] [glass])
  = Ok (Mat2 0 3 (-0.3333333333333333) 1).
Proof. by_evaluation. Qed.

Example b64_transfer_matrix_underflow :
  transfer_matrix
    (LensSystem_init [1e-200] [] [OpticalMaterial_init 1e-200 0])
  = Raise ZeroDivisionError.
Proof. by_evaluation. Qed.

Example b64_transfer_matrix_float64_zero_product :
  transfer_matrix
    (set_temperature (Scalar NpFloat64 40)
       (LensSystem_init [2] [] [OpticalMaterial_init 1 (-0.05)]))
  = Ok (Mat2 nan 0 neg_infinity 1).
Proof. by_evaluation. Qed.

Example b64_optimize_focal_length_two_lenses :
  optimize_focal_length (LensSystem_init [2; 4] [3; 5] [glass; glass]) 16
  = Ok [6; 10].
Proof. by_evaluation. Qed.

Example b64_series_10_20 :
  series_focal_length [Lens_init 10 CONVERGING 5; Lens_init 20 CONVERGING 5]
  = Ok 6.666666666666666.
Proof. by_evaluation. Qed.

Example b64_parallel_10_20 :
  parallel_focal_length [Lens_init 10 CONVERGING 5; Lens_init 20 DIVERGING 5]
  = Ok 30.
Proof. by_evaluation. Qed.
End B64Examples.

(** ** Part III. Further properties of the code *)

(** *** The loop of [transfer_matrix] *)

(** One iteration, with the propagation matrix read by lookup. *)
Lemma transfer_matrix_loop_cons (self : LensSystem) (i : nat) (f : Qc)
    (rest : list Qc) (M : mat2) :
  transfer_matrix_loop self i (f :: rest) M
  = (mat ← py_getitem (materials self) i;
     l ← truediv (scalar_kind (temperature self)) (- 1)
           (f * get_n mat (scalar_value (temperature self)));
     transfer_matrix_loop self (S i) rest
       (M @@ spec_P (distances self) i @@ Mat2 1 0 l 1)).
Proof. cbn [transfer_matrix_loop]. by rewrite propagation_spec. Qed.

(** The loop reads the distances and materials only at the indices it
    visits. *)
Lemma transfer_matrix_loop_ext (self1 self2 : LensSystem) (rest : list Qc) :
  temperature self1 = temperature self2 ->
  forall (i1 i2 : nat) (M : mat2),
    (forall j, (j < length rest)%nat ->
               distances self1 !! (i1 + j)%nat = distances self2 !! (i2 + j)%nat /\
               materials self1 !! (i1 + j)%nat = materials self2 !! (i2 + j)%nat) ->
    transfer_matrix_loop self1 i1 rest M = transfer_matrix_loop self2 i2 rest M.
Proof.
  intros HT. induction rest as [|f rest IH]; intros i1 i2 M Hsame; [done|].
  rewrite !transfer_matrix_loop_cons.
  destruct (Hsame 0%nat) as [Hd Hm]; [simpl; lia|].
  rewrite !Nat.add_0_r in Hd, Hm.
  unfold py_getitem, spec_P. rewrite Hd, Hm, HT.
  destruct (materials self2 !! i2) as [mat|]; [|done]. cbn [mbind outcome_bind].
  destruct (truediv _ _ _) as [l|e|]; [|done|done]. cbn [mbind outcome_bind].
  apply IH. intros j Hj.
  replace (S i1 + j)%nat with (i1 + S j)%nat by lia.
  replace (S i2 + j)%nat with (i2 + S j)%nat by lia.
  apply Hsame. simpl. lia.
Qed.

(** A factor on the left of the accumulator stays on the left of the result. *)
Lemma transfer_matrix_loop_left (self : LensSystem) (rest : list Qc) :
  forall (i : nat) (A M : mat2),
    transfer_matrix_loop self i rest (A @@ M)
    = matmul A <$> transfer_matrix_loop self i rest M.
Proof.
  induction rest as [|f rest IH]; intros i A M; [done|].
  rewrite !transfer_matrix_loop_cons.
  destruct (py_getitem _ _) as [mat|e|]; [|done|done]. cbn [mbind outcome_bind].
  destruct (truediv _ _ _) as [l|e|]; [|done|done]. cbn [mbind outcome_bind].
  by rewrite <- IH, !matmul_assoc.
Qed.

(** X2: surplus distances and materials, beyond the number of lenses, are
    never read. *)
Theorem transfer_matrix_surplus_ignored (self : LensSystem) :
  let N := length (focal_lengths self) in
  transfer_matrix self
  = transfer_matrix
      (mkLensSystem (focal_lengths self) (take N (distances self))
         (take N (materials self)) (temperature self)).
Proof.
  intros N. unfold transfer_matrix. cbn [focal_lengths].
  apply transfer_matrix_loop_ext; [done|]. intros j Hj.
  cbn [distances materials plus]. fold N in Hj.
  by rewrite !lookup_take_lt.
Qed.

Section B64MissingMaterial.
Import B64.
Local Open Scope float_scope.

Lemma b64_transfer_matrix_loop_short_materials (self : LensSystem)
    (rest : list float) :
  nonzero_powers self ->
  forall (i : nat) (M : mat2),
    drop i (focal_lengths self) = rest ->
    (i <= length (materials self) < length (focal_lengths self))%nat ->
    transfer_matrix_loop self i rest M = Raise IndexError.
Proof.
  intros Hnz. induction rest as [|f rest IH]; intros i M Hdrop Hi.
  - apply (f_equal length) in Hdrop. rewrite length_drop in Hdrop.
    simpl in Hdrop. lia.
  - assert (Hf : focal_lengths self !! i = Some f).
    { rewrite <- (Nat.add_0_r i), <- lookup_drop, Hdrop. reflexivity. }
    destruct (materials self !! i) as [m|] eqn:Hm.
    + rewrite (b64_transfer_matrix_loop_cons _ _ _ _ _ _ Hm).
      rewrite b64_truediv_ok by (intros Hk; by apply (Hnz Hk i f m)).
      cbn [mbind outcome_bind]. apply IH.
      * rewrite (drop_S _ _ _ Hf) in Hdrop. congruence.
      * apply lookup_lt_Some in Hm. lia.
    + by apply b64_transfer_matrix_loop_no_material.
Qed.
End B64MissingMaterial.

Lemma b64_transfer_matrix_short_materials (self : B64.LensSystem) :
  (length (B64.materials self) < length (B64.focal_lengths self))%nat ->
  B64.nonzero_powers self ->
  B64.transfer_matrix self = B64.Raise IndexError.
Proof.
  intros Hlen Hnz. unfold B64.transfer_matrix.
  apply b64_transfer_matrix_loop_short_materials; [done | done | lia].
Qed.

(** X3: with fewer materials than lenses, and no zero computed product
    f_i n_i among the lenses that have a material when the temperature is
    a Python float, [transfer_matrix] raises [IndexError]. *)
Theorem transfer_matrix_missing_material_raises (self : B64.LensSystem) :
  (length (B64.materials self) < length (B64.focal_lengths self))%nat ->
  B64.nonzero_powers self ->
  B64.transfer_matrix self = B64.Raise IndexError.
Proof. apply b64_transfer_matrix_short_materials. Qed.

Lemma transfer_matrix_missing_material_raises_witness :
  B64.transfer_matrix
    (B64.LensSystem_init [2%float; 4%float] [3%float]
       [B64.OpticalMaterial_init 1.5 0])
  = B64.Raise IndexError.
Proof.
  apply transfer_matrix_missing_material_raises.
  - simpl. lia.
  - intros _ [|[|i]] f m; simpl; intros Hf Hm; simplify_eq; reflexivity.
Defined.

(** The first distance enters the matrix as a factor on the left. *)
Lemma transfer_matrix_first_distance (self : LensSystem) (d : Qc)
    (ds : list Qc) :
  focal_lengths self <> [] ->
  transfer_matrix (set_distances (d :: ds) self)
  = matmul (Mat2 1 d 0 1) <$> transfer_matrix (set_distances (0 :: ds) self).
Proof.
  intros Hfs. unfold transfer_matrix. cbn [set_distances focal_lengths].
  destruct (focal_lengths self) as [|f rest] eqn:Efs; [done|].
  rewrite !transfer_matrix_loop_cons.
  cbn [set_distances materials temperature distances].
  destruct (py_getitem _ _) as [mat|e|]; [|done|done]. cbn [mbind outcome_bind].
  destruct (truediv _ _ _) as [l|e|]; [|done|done]. cbn [mbind outcome_bind].
  replace (np_eye2 @@ spec_P (d :: ds) 0 @@ Mat2 1 0 l 1)
    with (Mat2 1 d 0 1 @@ (np_eye2 @@ spec_P (0 :: ds) 0 @@ Mat2 1 0 l 1))
    by (unfold spec_P; cbn [lookup list_lookup]; mat2_ring).
  rewrite transfer_matrix_loop_left. f_equal.
  apply transfer_matrix_loop_ext; [done|]. intros j Hj. done.
Qed.

Lemma effective_focal_length_propagated (d : Qc) (M : mat2) :
  effective_focal_length (Mat2 1 d 0 1 @@ M) = effective_focal_length M.
Proof.
  unfold effective_focal_length. f_equal. destruct M. simpl. ring.
Qed.

Lemma effective_focal_length_first_distance (self : LensSystem) (d : Qc)
    (ds : list Qc) :
  (M ← transfer_matrix (set_distances (d :: ds) self);
   effective_focal_length M)
  = (M ← transfer_matrix (set_distances (0 :: ds) self);
     effective_focal_length M).
Proof.
  destruct (focal_lengths self) as [|f rest] eqn:Efs.
  - unfold transfer_matrix. cbn [set_distances focal_lengths]. by rewrite Efs.
  - rewrite transfer_matrix_first_distance by (by rewrite Efs).
    destruct (transfer_matrix _) as [M|e|]; [|done|done].
    cbn [fmap outcome_fmap mbind outcome_bind].
    apply effective_focal_length_propagated.
Qed.

Lemma effective_focal_length_first_distance_any (self : LensSystem)
    (d d' : Qc) (ds : list Qc) :
  (M ← transfer_matrix (set_distances (d :: ds) self);
   effective_focal_length M)
  = (M ← transfer_matrix (set_distances (d' :: ds) self);
     effective_focal_length M).
Proof.
  by rewrite (effective_focal_length_first_distance self d),
    (effective_focal_length_first_distance self d').
Qed.

(** X5: the effective focal length read from the matrix does not depend
    on the first distance. *)
Theorem effective_focal_length_ignores_first_distance (self : LensSystem)
    (d d' : Qc) (ds : list Qc) :
  (M ← transfer_matrix (set_distances (d :: ds) self);
   effective_focal_length M)
  = (M ← transfer_matrix (set_distances (d' :: ds) self);
     effective_focal_length M).
Proof. apply effective_focal_length_first_distance_any. Qed.

(** *** More on the optimizer *)

(** X6: the optimizer raises what [transfer_matrix] raises and nothing
    else: its own two divisions follow numpy.  With the matrix [M] it
    returns every distance times target_f / (-1/M[1,0]), also on an afocal
    system, where M[1,0] is zero: there the current focal length is an
    infinity and the scale a zero, and for a finite target and finite
    distances every distance returned is zero. *)
Theorem optimize_focal_length_faults (lens_system : B64.LensSystem)
    (target_f : float) :
  (forall e,
      B64.transfer_matrix lens_system = B64.Raise e ->
      B64.optimize_focal_length lens_system target_f = B64.Raise e) /\
  (forall M,
      B64.transfer_matrix lens_system = B64.Ok M ->
      let new_distances :=
        (fun d => d * (target_f / (- 1 / B64.m10 M)))%float
        <$> B64.distances lens_system in
      B64.optimize_focal_length lens_system target_f = B64.Ok new_distances /\
      ((B64.m10 M =? 0)%float = true ->
       is_finite target_f = true ->
       Forall (fun d => is_finite d = true) (B64.distances lens_system) ->
       Forall (fun d => (d =? 0)%float = true) new_distances)).
Proof.
  split.
  - intros e He. unfold B64.optimize_focal_length. by rewrite He.
  - intros M HM new_distances. split.
    + unfold B64.optimize_focal_length. by rewrite HM.
    + intros Hz Ht Hds. apply Forall_fmap.
      apply (Forall_impl _ _ _ Hds). intros d Hd. cbn [compose].
      rewrite float_mul_comm. apply float_mul_zero_finite; [|done].
      apply float_div_infinite_zero; [done|].
      by apply float_div_zero_infinite.
Qed.

Lemma optimize_focal_length_faults_witness :
  B64.optimize_focal_length (B64.LensSystem_init [] [1%float] []) 16
  = B64.Ok [(1 * (16 / (- 1 / 0)))%float] /\
  Forall (fun d => (d =? 0)%float = true) [(1 * (16 / (- 1 / 0)))%float].
Proof.
  destruct (proj2 (optimize_focal_length_faults
                     (B64.LensSystem_init [] [1%float] []) 16%float)
              (B64.Mat2 1 0 0 1) eq_refl)
    as [Hrun Hzero].
  split; [exact Hrun|].
  apply Hzero; [reflexivity | reflexivity |].
  repeat constructor.
Defined.

Lemma np_true_divide_zero (x y : Qc) : y = 0 -> np_true_divide x y = NonFinite.
Proof. intros Hy. unfold np_true_divide. by destruct (decide (y = 0)). Qed.




(** *** The temperature sweep of [plot_system_analysis] *)

Section B64Sweep.
Import B64.
Local Open Scope float_scope.

Lemma b64_nonzero_powers_float64 (T : float) (self : LensSystem) :
  nonzero_powers (set_temperature (Scalar NpFloat64 T) self).
Proof. intros Hk. discriminate Hk. Qed.

(** With a [float64] temperature and a material for every lens the matrix
    is always computed. *)
Lemma b64_transfer_matrix_float64 (T : float) (self : LensSystem) :
  (length (focal_lengths self) <= length (materials self))%nat ->
  exists M,
    transfer_matrix (set_temperature (Scalar NpFloat64 T) self) = Ok M.
Proof.
  intros Hlen. eexists. apply b64_transfer_matrix_fold; [done|].
  apply b64_nonzero_powers_float64.
Qed.

Lemma b64_readout_at_set_temperature (T : scalar) (self : LensSystem)
    (T' : float) :
  readout_at (set_temperature T self) T' = readout_at self T'.
Proof. reflexivity. Qed.

Lemma b64_temperature_sweep_completes (temps : list float) :
  forall (lens_system : LensSystem) (focal_shifts : list float),
    (length (focal_lengths lens_system)
     <= length (materials lens_system))%nat ->
    exists readings,
      temperature_sweep temps lens_system focal_shifts
      = (Ok (focal_shifts ++ readings), after_sweep temps lens_system) /\
      Forall2 (fun T r => readout_at lens_system T = Ok r) temps readings.
Proof.
  induction temps as [|T temps IH]; intros lens_system focal_shifts Hlen.
  - exists []. split; [by rewrite app_nil_r | constructor].
  - destruct (b64_transfer_matrix_float64 T lens_system Hlen) as [M HM].
    destruct (IH (set_temperature (Scalar NpFloat64 T) lens_system)
                (focal_shifts ++ [- 1 / m10 M]) Hlen)
      as (readings & Hrun & Hread).
    exists ((- 1 / m10 M) :: readings). split.
    + cbn [temperature_sweep]. rewrite HM, Hrun, <- app_assoc. f_equal.
      unfold after_sweep. rewrite last_cons. by destruct (last temps).
    + constructor; [unfold readout_at; by rewrite HM|].
      apply (Forall2_impl _ _ _ _ Hread). intros T' r' Hr'.
      by rewrite b64_readout_at_set_temperature in Hr'.
Qed.
End B64Sweep.

(** X9: on a system with a material for every lens the sweep never
    raises, whatever the temperatures are (a zero product f_i n_i gives an
    infinity there, not an exception): it appends one reading per
    temperature, each the readout -1/M[1,0] at that temperature, and leaves
    the system at the last temperature.  With a material missing, the
    first pass raises [IndexError] and leaves the first temperature
    behind. *)
Theorem temperature_sweep_leaves_last (temps : list float)
    (lens_system : B64.LensSystem) (focal_shifts : list float) :
  ((length (B64.focal_lengths lens_system)
    <= length (B64.materials lens_system))%nat ->
   exists readings,
     B64.temperature_sweep temps lens_system focal_shifts
     = (B64.Ok (focal_shifts ++ readings),
        B64.after_sweep temps lens_system) /\
     length readings = length temps /\
     Forall2 (fun T r => B64.readout_at lens_system T = B64.Ok r)
       temps readings) /\
  ((length (B64.materials lens_system)
    < length (B64.focal_lengths lens_system))%nat ->
   forall T rest,
     temps = T :: rest ->
     B64.temperature_sweep temps lens_system focal_shifts
     = (B64.Raise IndexError,
        B64.set_temperature (B64.Scalar NpFloat64 T) lens_system)).
Proof.
  split.
  - intros Hlen.
    destruct (b64_temperature_sweep_completes temps lens_system focal_shifts
                Hlen) as (readings & Hrun & Hread).
    exists readings. split; [done|]. split; [|done].
    symmetry. by apply (Forall2_length _ _ _ Hread).
  - intros Hlen T rest ->. cbn [B64.temperature_sweep].
    rewrite b64_transfer_matrix_short_materials; [done | done |].
    apply b64_nonzero_powers_float64.
Qed.

Lemma temperature_sweep_leaves_last_witness :
  exists readings,
    B64.temperature_sweep [0%float; 40%float; 20%float]
      (B64.LensSystem_init [2%float] [] [B64.OpticalMaterial_init 1 (-0.05)])
      []
    = (B64.Ok ([] ++ readings),
       B64.set_temperature (B64.Scalar NpFloat64 20)
         (B64.LensSystem_init [2%float] []
            [B64.OpticalMaterial_init 1 (-0.05)])) /\
    length readings = 3%nat.
Proof.
  destruct
    (proj1 (temperature_sweep_leaves_last [0%float; 40%float; 20%float]
              (B64.LensSystem_init [2%float] []
                 [B64.OpticalMaterial_init 1 (-0.05)]) []))
    as (readings & Hrun & Hlen & _).
  - simpl. lia.
  - exists readings. by split.
Defined.

Lemma b64_np_linspace_0_40_100 :
  exists temps,
    B64.np_linspace 0 40 100 = B64.Ok temps /\
    length temps = 100%nat /\
    head temps = Some 0%float /\
    last temps = Some 40%float.
Proof. eexists. split; [vm_compute; reflexivity|]. by vm_compute. Qed.

(** X10: on a system with a material for every lens the sweep of
    [plot_system_analysis] takes its 100 readings, one at each sample of
    [np.linspace(0, 40, 100)], and leaves the system at the [float64]
    temperature 40.0, not at the 20.0 it was built with, so the optimizer
    that [main] runs next works at 40.0.  With a material missing it
    raises [IndexError] at the first temperature, 0.0, and leaves that
    behind. *)
Theorem temperature_effects_leaves_40 (lens_system : B64.LensSystem) :
  ((length (B64.focal_lengths lens_system)
    <= length (B64.materials lens_system))%nat ->
   exists temps focal_shifts,
     B64.np_linspace 0 40 100 = B64.Ok temps /\
     B64.temperature_effects lens_system
     = (B64.Ok focal_shifts,
        B64.set_temperature (B64.Scalar NpFloat64 40) lens_system) /\
     length focal_shifts = 100%nat /\
     Forall2 (fun T r => B64.readout_at lens_system T = B64.Ok r)
       temps focal_shifts) /\
  ((length (B64.materials lens_system)
    < length (B64.focal_lengths lens_system))%nat ->
   B64.temperature_effects lens_system
   = (B64.Raise IndexError,
      B64.set_temperature (B64.Scalar NpFloat64 0) lens_system)).
Proof.
  destruct b64_np_linspace_0_40_100 as (temps & Htemps & Hlen & Hhead & Hlast).
  unfold B64.temperature_effects. rewrite Htemps. split.
  - intros Hms.
    destruct (b64_temperature_sweep_completes temps lens_system [] Hms)
      as (readings & Hrun & Hread).
    exists temps, readings. rewrite Hrun. split; [done|]. split; [|split].
    + unfold B64.after_sweep. by rewrite Hlast.
    + by rewrite <- (Forall2_length _ _ _ Hread).
    + done.
  - intros Hms. destruct temps as [|T temps]; [done|].
    injection Hhead as ->. cbn [B64.temperature_sweep].
    rewrite b64_transfer_matrix_short_materials; [done | done |].
    apply b64_nonzero_powers_float64.
Qed.

Lemma temperature_effects_leaves_40_witness :
  (exists focal_shifts,
      B64.temperature_effects
        (B64.LensSystem_init [2%float; 4%float] [3%float]
           [B64.OpticalMaterial_init 1 0; B64.OpticalMaterial_init 1.5 1e-6])
      = (B64.Ok focal_shifts,
         B64.set_temperature (B64.Scalar NpFloat64 40)
           (B64.LensSystem_init [2%float; 4%float] [3%float]
              [B64.OpticalMaterial_init 1 0;
               B64.OpticalMaterial_init 1.5 1e-6])) /\
      length focal_shifts = 100%nat) /\
  B64.temperature_effects
    (B64.LensSystem_init [2%float; 4%float] [3%float]
       [B64.OpticalMaterial_init 1 0])
  = (B64.Raise IndexError,
     B64.set_temperature (B64.Scalar NpFloat64 0)
       (B64.LensSystem_init [2%float; 4%float] [3%float]
          [B64.OpticalMaterial_init 1 0])).
Proof.
  split.
  - destruct
      (proj1 (temperature_effects_leaves_40
                (B64.LensSystem_init [2%float; 4%float] [3%float]
                   [B64.OpticalMaterial_init 1 0;
                    B64.OpticalMaterial_init 1.5 1e-6])))
      as (temps & focal_shifts & _ & Hrun & Hlen & _).
    + simpl. lia.
    + exists focal_shifts. by split.
  - apply temperature_effects_leaves_40. simpl. lia.
Defined.

(** *** Materials without thermal drift *)








(** *** Wave optics *)

Lemma Qc_sqr_nonneg (x : Qc) : 0 <= x ^ 2.
Proof.
  replace (x ^ 2) with (x * x) by (simpl; ring).
  destruct (Qclt_le_dec x 0) as [Hneg|Hpos].
  - replace (x * x) with (- x * - x) by ring.
    assert (H : 0 <= - x).
    { replace 0 with (- 0) by ring.
      apply Qcopp_le_compat, Qclt_le_weak, Hneg. }
    by apply Qcmult_nonneg_nonneg.
  - by apply Qcmult_nonneg_nonneg.
Qed.

(** [calculate_diffraction] on a non-zero distance and a sample count. *)
Lemma calculate_diffraction_closed_form (j0 : Qc -> Qc) (wave : WaveProperties)
    (a D : Qc) (points : Z) :
  D <> 0 -> (0 <= points)%Z ->
  calculate_diffraction j0 wave a D points
  = Ok (uniform_sampling 0 (a * lit 10) (Z.to_nat points),
        (fun ri => (a * j0 (k wave * a * ri / D)) ^ 2)
        <$> uniform_sampling 0 (a * lit 10) (Z.to_nat points)).
Proof.
  intros HD Hpoints. unfold calculate_diffraction.
  rewrite (np_linspace_uniform _ _ _ Hpoints). cbn [mbind outcome_bind].
  rewrite (np_map_total _ (fun ri => (a * j0 (k wave * a * ri / D)) ^ 2));
    [done|].
  intros x. by rewrite (np_true_divide_ok _ _ HD).
Qed.

Lemma uniform_sampling_first (lo hi : Qc) (n : nat) :
  (1 <= n)%nat -> uniform_sampling lo hi n !! 0%nat = Some lo.
Proof.
  intros Hn. unfold uniform_sampling.
  rewrite list_lookup_fmap, lookup_seq_lt by lia.
  cbn [fmap option_fmap option_map plus]. f_equal.
  change (Qc_of_Z (Z.of_nat 0)) with (Qc_of_Z 0). rewrite Z2Qc_inj_0.
  unfold Qcdiv. ring.
Qed.

Lemma uniform_sampling_last (lo hi : Qc) (n : nat) :
  (2 <= n)%nat -> uniform_sampling lo hi n !! (n - 1)%nat = Some hi.
Proof.
  intros Hn. unfold uniform_sampling.
  rewrite list_lookup_fmap, lookup_seq_lt by lia.
  cbn [fmap option_fmap option_map plus]. f_equal.
  replace (Z.of_nat (n - 1)) with (Z.of_nat n - 1)%Z by lia.
  field. rewrite <- Z2Qc_inj_0. intros H. apply Z2Qc_inj in H. lia.
Qed.

(** X13: on a non-zero distance and a sample count the diffraction
    pattern has [points] radii and as many intensities, none negative; the
    radii start at 0, where the intensity is (a J0(0))^2, and from two
    samples on they end at 10 a. *)
Theorem calculate_diffraction_shape (j0 : Qc -> Qc) (wave : WaveProperties)
    (a D : Qc) (points : Z) :
  D <> 0 -> (0 <= points)%Z ->
  exists r I : list Qc,
    calculate_diffraction j0 wave a D points = Ok (r, I) /\
    length r = Z.to_nat points /\
    length I = Z.to_nat points /\
    Forall (fun x => 0 <= x) I /\
    ((1 <= points)%Z ->
     r !! 0%nat = Some 0 /\ I !! 0%nat = Some ((a * j0 0) ^ 2)) /\
    ((2 <= points)%Z -> r !! (Z.to_nat points - 1)%nat = Some (a * lit 10)).
Proof.
  intros HD Hpoints. eexists _, _.
  split; [by apply calculate_diffraction_closed_form|].
  split_and!.
  - apply uniform_sampling_length.
  - by rewrite length_fmap, uniform_sampling_length.
  - apply Forall_fmap, Forall_forall. intros x _. apply Qc_sqr_nonneg.
  - intros H1.
    rewrite list_lookup_fmap, uniform_sampling_first by lia.
    split; [done|]. cbn [fmap option_fmap option_map]. do 4 f_equal.
    unfold Qcdiv. ring.
  - intros H2. apply uniform_sampling_last. lia.
Qed.

Lemma calculate_diffraction_shape_witness :
  exists r I : list Qc,
    calculate_diffraction (fun x => 1 - x * x / lit 4)
      (mkWaveProperties 1 (lit 2 * np_pi) (lit 300000000 * (lit 2 * np_pi)))
      (lit (1 # 1000)) 1 5
    = Ok (r, I) /\
    length r = 5%nat /\ Forall (fun x => 0 <= x) I.
Proof.
  destruct (calculate_diffraction_shape (fun x => 1 - x * x / lit 4)
              (mkWaveProperties 1 (lit 2 * np_pi)
                 (lit 300000000 * (lit 2 * np_pi)))
              (lit (1 # 1000)) 1 5)
    as (r & I & Hrun & Hr & _ & HI & _); [done | lia |].
  by exists r, I.
Defined.

(** X14: at distance 0 the diffraction pattern is not finite as soon as
    there is one sample (the first quotient is 0/0 in numpy), while with no
    sample at all it is the pair of empty arrays, whatever the distance. *)
Theorem calculate_diffraction_edges (j0 : Qc -> Qc) (wave : WaveProperties)
    (a D : Qc) (points : Z) :
  ((1 <= points)%Z -> D = 0 ->
   calculate_diffraction j0 wave a D points = NonFinite) /\
  (points = 0%Z -> calculate_diffraction j0 wave a D points = Ok ([], [])).
Proof.
  split.
  - intros Hpoints ->. unfold calculate_diffraction.
    rewrite np_linspace_uniform by lia. cbn [mbind outcome_bind].
    unfold uniform_sampling.
    destruct (Z.to_nat points) as [|n] eqn:Hn; [lia|].
    cbn [seq fmap list_fmap np_map mbind outcome_bind].
    by rewrite np_true_divide_zero.
  - by intros ->.
Qed.

Lemma calculate_diffraction_edges_witness :
  calculate_diffraction (fun x => 1 - x * x / lit 4)
    (mkWaveProperties 1 (lit 2 * np_pi) (lit 300000000 * (lit 2 * np_pi)))
    (lit (1 # 1000)) 0 1000
  = NonFinite /\
  calculate_diffraction (fun x => 1 - x * x / lit 4)
    (mkWaveProperties 1 (lit 2 * np_pi) (lit 300000000 * (lit 2 * np_pi)))
    (lit (1 # 1000)) 0 0
  = Ok ([], []).
Proof.
  split; apply calculate_diffraction_edges; done || lia.
Defined.

(** X15: the interference pattern has one intensity per angle, none
    negative; with slit separation 0 every angle gets cos(0)^2. *)
Theorem calculate_interference_shape (np_cos np_sin : Qc -> Qc)
    (wave : WaveProperties) (d : Qc) (theta : list Qc) :
  length (calculate_interference np_cos np_sin wave d theta) = length theta /\
  Forall (fun x => 0 <= x) (calculate_interference np_cos np_sin wave d theta) /\
  calculate_interference np_cos np_sin wave 0 theta
  = replicate (length theta) (np_cos 0 ^ 2).
Proof.
  unfold calculate_interference. split_and!.
  - apply length_fmap.
  - apply Forall_fmap, Forall_forall. intros x _. apply Qc_sqr_nonneg.
  - induction theta as [|t theta IH]; [done|].
    cbn [fmap list_fmap length replicate]. f_equal; [|exact IH].
    do 2 f_equal. unfold Qcdiv. ring.
Qed.

(** *** LensCalculator.draw_ray_diagram *)



(** *** More on the series combination *)

Lemma py_sum_powers_zero (lenses : list Lens) :
  Exists zero_focal lenses ->
  forall acc,
    py_sum_from (fun lens => py_truediv 1 (focal_length lens)) lenses acc
    = Raise ZeroDivisionError.
Proof.
  induction lenses as [|lens lenses IH]; intros Hex acc.
  - by apply Exists_nil in Hex.
  - cbn [py_sum_from].
    destruct (decide (focal_length lens = 0)) as [Hz|Hnz].
    + by rewrite (py_truediv_zero _ _ Hz).
    + rewrite (py_truediv_ok _ _ Hnz). cbn [mbind outcome_bind].
      apply IH. apply Exists_cons in Hex. by destruct Hex.
Qed.

Lemma series_focal_length_zero (lenses : list Lens) :
  Exists zero_focal lenses ->
  series_focal_length lenses = Raise ZeroDivisionError.
Proof.
  intros Hex. destruct lenses as [|lens lenses].
  - by apply Exists_nil in Hex.
  - unfold series_focal_length, py_sum. by rewrite (py_sum_powers_zero _ Hex).
Qed.

Lemma nonzero_or_zero_focal (lenses : list Lens) :
  Forall nonzero_focal lenses \/ Exists zero_focal lenses.
Proof.
  induction lenses as [|lens lenses [IH|IH]].
  - left. constructor.
  - destruct (decide (focal_length lens = 0)) as [Hz|Hnz].
    + right. by left.
    + left. by constructor.
  - right. by right.
Qed.

(** X19: [series_focal_length] raises [ZeroDivisionError] exactly when
    some lens of the list has focal length 0. *)
Theorem series_focal_length_raises_iff (lenses : list Lens) :
  series_focal_length lenses = Raise ZeroDivisionError
  <-> Exists zero_focal lenses.
Proof.
  split; [|apply series_focal_length_zero].
  intros Hraise. destruct (nonzero_or_zero_focal lenses) as [Hnz|Hz]; [|done].
  destruct lenses as [|lens lenses]; [done|].
  rewrite series_focal_length_cases in Hraise by done.
  by destruct (decide (total_power (lens :: lenses) <> 0)).
Qed.

(** *** The input loop of [main] *)

Section WhileTrue.
Context {S : Type} (body : S -> list string -> step S).
Hypothesis Hconsumes : consumes body.

Lemma run_loop_fuel (fuel1 : nat) :
  forall (fuel2 : nat) (st : S) (inp : list string),
    (length inp < fuel1)%nat -> (length inp < fuel2)%nat ->
    run_loop body fuel1 st inp = run_loop body fuel2 st inp.
Proof.
  induction fuel1 as [|fuel1 IH]; intros fuel2 st inp H1 H2; [lia|].
  destruct fuel2 as [|fuel2]; [lia|]. cbn [run_loop].
  destruct (body st inp) as [st' rest|st' rest|e] eqn:Hbody; [|done|done].
  apply Hconsumes in Hbody. apply IH; lia.
Qed.

Lemma while_true_unfold (st : S) (inp : list string) :
  while_true body st inp
  = match body st inp with
    | Continue st' rest => while_true body st' rest
    | Break st' rest => Some (Finished st' rest)
    | Stop e => Some (Stopped e)
    end.
Proof.
  unfold while_true at 1. cbn [run_loop].
  destruct (body st inp) as [st' rest|st' rest|e] eqn:Hbody; [|done|done].
  apply Hconsumes in Hbody. unfold while_true. apply run_loop_fuel; lia.
Qed.

(** The loop always comes to an end: by [break], or by an exception. *)
Lemma while_true_total (st : S) (inp : list string) :
  is_Some (while_true body st inp).
Proof.
  remember (length inp) as n eqn:Hn.
  assert (Hle : (length inp <= n)%nat) by lia. clear Hn.
  revert st inp Hle. induction n as [|n IH]; intros st inp Hle;
    rewrite while_true_unfold;
    destruct (body st inp) as [st' rest|st' rest|e] eqn:Hbody; try done;
    apply Hconsumes in Hbody; [lia|]. apply IH. lia.
Qed.

(** A property kept by every pass that continues holds when the loop
    breaks. *)
Lemma while_true_invariant (I : S -> list string -> Prop) (Q : S -> Prop) :
  (forall st inp st' rest,
      I st inp -> body st inp = Continue st' rest -> I st' rest) ->
  (forall st inp st' rest,
      I st inp -> body st inp = Break st' rest -> Q st') ->
  forall st inp st' rest,
    I st inp -> while_true body st inp = Some (Finished st' rest) -> Q st'.
Proof.
  intros Hstep Hbreak st inp. remember (length inp) as n eqn:Hn.
  assert (Hle : (length inp <= n)%nat) by lia. clear Hn.
  revert st inp Hle. induction n as [|n IH]; intros st inp Hle st' rest HI;
    rewrite while_true_unfold;
    destruct (body st inp) as [st1 rest1|st1 rest1|e] eqn:Hbody; try done.
  - apply Hconsumes in Hbody. lia.
  - intros [= <- <-]. exact (Hbreak _ _ _ _ HI Hbody).
  - intros Hrun. apply (IH st1 rest1 ltac:(apply Hconsumes in Hbody; lia)
                          st' rest (Hstep _ _ _ _ HI Hbody) Hrun).
  - intros [= <- <-]. exact (Hbreak _ _ _ _ HI Hbody).
Qed.

End WhileTrue.

Section ConsoleProperties.
Variable py_float : string -> option Qc.

Lemma input_float_Read (inp rest : list string) (q : Qc) :
  input_float py_float inp = Read q rest ->
  exists s, inp = s :: rest /\ py_float s = Some q.
Proof.
  unfold input_float. destruct inp as [|s inp]; [done|].
  destruct (py_float s) as [q'|] eqn:Hs; [|done]. intros [= <- <-]. by exists s.
Qed.

Lemma input_float_BadNumber (inp rest : list string) :
  input_float py_float inp = BadNumber rest ->
  exists s, inp = s :: rest /\ py_float s = None.
Proof.
  unfold input_float. destruct inp as [|s inp]; [done|].
  destruct (py_float s) as [q'|] eqn:Hs; [done|]. intros [= <-]. by exists s.
Qed.

Lemma input_float_or_Read (default : Qc) (inp rest : list string) (q : Qc) :
  input_float_or py_float default inp = Read q rest ->
  exists s, inp = s :: rest /\
            (s = ""%string /\ q = default \/ py_float s = Some q).
Proof.
  unfold input_float_or. destruct inp as [|s inp]; [done|].
  destruct (decide (s = ""%string)) as [->|Hs].
  - intros [= <- <-]. exists ""%string. split; [done|]. by left.
  - destruct (py_float s) as [q'|] eqn:Hq; [|done].
    intros [= <- <-]. exists s. split; [done|]. by right.
Qed.

Lemma input_float_or_BadNumber (default : Qc) (inp rest : list string) :
  input_float_or py_float default inp = BadNumber rest ->
  exists s, inp = s :: rest /\ s <> ""%string /\ py_float s = None.
Proof.
  unfold input_float_or. destruct inp as [|s inp]; [done|].
  destruct (decide (s = ""%string)) as [->|Hs]; [done|].
  destruct (py_float s) as [q'|] eqn:Hq; [done|].
  intros [= <-]. by exists s.
Qed.

(** The ways one pass of the loop of LensSystem.py can go on. *)
Lemma read_lens_Continue (st st' : entered) (inp rest : list string) :
  read_lens py_float st inp = Continue st' rest ->
  (length rest < length inp)%nat /\
  (st' = st \/
   exists f,
     f <> 0 /\
     entered_focal_lengths st' = entered_focal_lengths st ++ [f] /\
     (entered_distances st' = entered_distances st \/
      entered_focal_lengths st <> [] /\
      exists d, entered_distances st' = entered_distances st ++ [d]) /\
     (entered_materials st' = entered_materials st \/
      (entered_focal_lengths st = [] ->
       entered_distances st' = entered_distances st) /\
      (entered_focal_lengths st <> [] ->
       exists d, entered_distances st' = entered_distances st ++ [d]) /\
      exists n dn,
        entered_materials st'
        = entered_materials st ++ [OpticalMaterial_init n dn])).
Proof.
  unfold read_lens.
  destruct (input_float py_float inp) as [f rest0| rest0|] eqn:Hf; [| |done].
  2:{ intros [= <- <-]. apply input_float_BadNumber in Hf as (s & -> & _).
      split; [simpl; lia | by left]. }
  apply input_float_Read in Hf as (sf & -> & _).
  destruct (decide (f = 0)) as [|Hnz]; [done|].
  destruct (decide (1 < length (entered_focal_lengths st ++ [f]))%nat)
    as [Hmany|Hone].
  - assert (Hne : entered_focal_lengths st <> []).
    { intros H. rewrite H in Hmany. simpl in Hmany. lia. }
    destruct (input_float py_float rest0) as [d rest1|rest1|] eqn:Hd;
      [| |done].
    2:{ intros [= <- <-]. apply input_float_BadNumber in Hd as (s & -> & _).
        split; [simpl; lia|]. right. exists f.
        split_and!; [done | done | by left | by left]. }
    apply input_float_Read in Hd as (sd & -> & _).
    destruct (input_float_or py_float _ rest1) as [n rest2|rest2|] eqn:Hn;
      [| |done].
    2:{ intros [= <- <-].
        apply input_float_or_BadNumber in Hn as (s & -> & _).
        split; [simpl; lia|]. right. exists f.
        split_and!; [done | done | right; eauto | by left]. }
    apply input_float_or_Read in Hn as (sn & -> & _).
    destruct (input_float_or py_float _ rest2) as [x rest3|rest3|] eqn:Hx;
      [| |done].
    2:{ intros [= <- <-].
        apply input_float_or_BadNumber in Hx as (s & -> & _).
        split; [simpl; lia|]. right. exists f.
        split_and!; [done | done | right; eauto | by left]. }
    apply input_float_or_Read in Hx as (sx & -> & _).
    intros [= <- <-]. split; [simpl; lia|]. right. exists f.
    split_and!; [done | done | right; eauto |].
    right. split_and!; [done | eauto | eauto].
  - assert (He : entered_focal_lengths st = []).
    { destruct (entered_focal_lengths st); [done|].
      rewrite length_app in Hone. simpl in Hone. lia. }
    destruct (input_float_or py_float _ rest0) as [n rest2|rest2|] eqn:Hn;
      [| |done].
    2:{ intros [= <- <-].
        apply input_float_or_BadNumber in Hn as (s & -> & _).
        split; [simpl; lia|]. right. exists f.
        split_and!; [done | done | by left | by left]. }
    apply input_float_or_Read in Hn as (sn & -> & _).
    destruct (input_float_or py_float _ rest2) as [x rest3|rest3|] eqn:Hx;
      [| |done].
    2:{ intros [= <- <-].
        apply input_float_or_BadNumber in Hx as (s & -> & _).
        split; [simpl; lia|]. right. exists f.
        split_and!; [done | done | by left | by left]. }
    apply input_float_or_Read in Hx as (sx & -> & _).
    intros [= <- <-]. split; [simpl; lia|]. right. exists f.
    split_and!; [done | done | by left |].
    right. split_and!; [done | done | eauto].
Qed.

Lemma read_lens_Break (st st' : entered) (inp rest : list string) :
  read_lens py_float st inp = Break st' rest -> st' = st.
Proof.
  unfold read_lens.
  destruct (input_float py_float inp) as [f rest0| rest0|]; [|done|done].
  destruct (decide (f = 0)); [by intros [= <- <-]|].
  repeat case_match; done.
Qed.

Lemma read_lens_consumes : consumes (read_lens py_float).
Proof. intros st inp st' rest H. by apply read_lens_Continue in H as [? _]. Qed.

Lemma read_lens_bounds (st st' : entered) (inp rest : list string) :
  entered_bounds st -> read_lens py_float st inp = Continue st' rest ->
  entered_bounds st'.
Proof.
  intros (Hnz & Hms & Hds & Href) Hstep.
  apply read_lens_Continue in Hstep as [_ [->|(f & Hf & Hfs & Hd & Hm)]];
    [done|].
  unfold entered_bounds. rewrite Hfs, length_app. cbn [length].
  split_and!.
  - apply Forall_app. split; [done | by constructor].
  - destruct Hm as [->|(_ & _ & n & dn & ->)]; [lia|].
    rewrite length_app. simpl. lia.
  - destruct Hd as [->|(Hne & d & ->)]; [lia|].
    rewrite length_app. simpl.
    destruct (entered_focal_lengths st); [done|]. simpl in *. lia.
  - destruct Hm as [->|(_ & _ & n & dn & ->)]; [done|].
    apply Forall_app. split; [done | by constructor].
Qed.

Lemma read_lenses_bounds (inp rest : list string) (st : entered) :
  read_lenses py_float inp = Some (Finished st rest) -> entered_bounds st.
Proof.
  apply (while_true_invariant _ read_lens_consumes
           (fun st _ => entered_bounds st) entered_bounds).
  - intros st0 inp0 st' rest0. apply read_lens_bounds.
  - intros st0 inp0 st' rest0 Hb Hbreak.
    by rewrite (read_lens_Break _ _ _ _ Hbreak).
  - by repeat split.
Qed.

(** X24: whatever is typed, the loop of [main] comes to an end, and when
    it ends by the user entering 0 the lists hold no zero focal length, no
    more materials than focal lengths, and fewer distances than focal
    lengths. *)
Theorem read_lenses_keeps_bounds (inp : list string) :
  exists r,
    read_lenses py_float inp = Some r /\
    forall st rest,
      r = Finished st rest ->
      Forall (fun f => f <> 0) (entered_focal_lengths st) /\
      (length (entered_materials st)
       <= length (entered_focal_lengths st))%nat /\
      (length (entered_distances st)
       <= pred (length (entered_focal_lengths st)))%nat.
Proof.
  destruct (while_true_total _ read_lens_consumes (Entered [] [] []) inp)
    as [r Hr].
  exists r. split; [exact Hr|]. intros st rest ->.
  by destruct (read_lenses_bounds _ _ _ Hr) as (? & ? & ? & _).
Qed.

(** One pass over lines that all read as numbers appends a whole lens. *)
Lemma read_lens_numeric (st st' : entered) (inp rest : list string) :
  Forall (fun s => is_Some (py_float s)) inp ->
  read_lens py_float st inp = Continue st' rest ->
  Forall (fun s => is_Some (py_float s)) rest /\
  (length (entered_focal_lengths st')
   = Datatypes.S (length (entered_focal_lengths st)))%nat /\
  (length (entered_materials st')
   = Datatypes.S (length (entered_materials st)))%nat /\
  (length (entered_distances st')
   = if decide (entered_focal_lengths st = [])
     then length (entered_distances st)
     else Datatypes.S (length (entered_distances st)))%nat.
Proof.
  intros Hnum. unfold read_lens.
  destruct (input_float py_float inp) as [f rest0| rest0|] eqn:Hf; [| |done].
  2:{ apply input_float_BadNumber in Hf as (s & -> & Hs).
      apply Forall_cons in Hnum as [[q Hq] _]. congruence. }
  apply input_float_Read in Hf as (sf & -> & _).
  apply Forall_cons in Hnum as [_ Hnum].
  destruct (decide (f = 0)) as [|Hnz]; [done|].
  destruct (decide (1 < length (entered_focal_lengths st ++ [f]))%nat)
    as [Hmany|Hone].
  - assert (Hne : entered_focal_lengths st <> []).
    { intros H. rewrite H in Hmany. simpl in Hmany. lia. }
    destruct (input_float py_float rest0) as [d rest1|rest1|] eqn:Hd;
      [| |done].
    2:{ apply input_float_BadNumber in Hd as (s & -> & Hs).
        apply Forall_cons in Hnum as [[q Hq] _]. congruence. }
    apply input_float_Read in Hd as (sd & -> & _).
    apply Forall_cons in Hnum as [_ Hnum].
    destruct (input_float_or py_float _ rest1) as [n rest2|rest2|] eqn:Hn;
      [| |done].
    2:{ apply input_float_or_BadNumber in Hn as (s & -> & _ & Hs).
        apply Forall_cons in Hnum as [[q Hq] _]. congruence. }
    apply input_float_or_Read in Hn as (sn & -> & _).
    apply Forall_cons in Hnum as [_ Hnum].
    destruct (input_float_or py_float _ rest2) as [x rest3|rest3|] eqn:Hx;
      [| |done].
    2:{ apply input_float_or_BadNumber in Hx as (s & -> & _ & Hs).
        apply Forall_cons in Hnum as [[q Hq] _]. congruence. }
    apply input_float_or_Read in Hx as (sx & -> & _).
    apply Forall_cons in Hnum as [_ Hnum].
    intros [= <- <-]. cbn [entered_focal_lengths entered_materials
                            entered_distances].
    rewrite !length_app, decide_False by done. simpl.
    split_and!; [done | lia | lia | lia].
  - assert (He : entered_focal_lengths st = []).
    { destruct (entered_focal_lengths st); [done|].
      rewrite length_app in Hone. simpl in Hone. lia. }
    destruct (input_float_or py_float _ rest0) as [n rest2|rest2|] eqn:Hn;
      [| |done].
    2:{ apply input_float_or_BadNumber in Hn as (s & -> & _ & Hs).
        apply Forall_cons in Hnum as [[q Hq] _]. congruence. }
    apply input_float_or_Read in Hn as (sn & -> & _).
    apply Forall_cons in Hnum as [_ Hnum].
    destruct (input_float_or py_float _ rest2) as [x rest3|rest3|] eqn:Hx;
      [| |done].
    2:{ apply input_float_or_BadNumber in Hx as (s & -> & _ & Hs).
        apply Forall_cons in Hnum as [[q Hq] _]. congruence. }
    apply input_float_or_Read in Hx as (sx & -> & _).
    apply Forall_cons in Hnum as [_ Hnum].
    intros [= <- <-]. cbn [entered_focal_lengths entered_materials
                            entered_distances].
    rewrite !length_app, decide_True by done. simpl.
    split_and!; [done | lia | lia | done].
Qed.

Lemma read_lenses_aligned (inp rest : list string) (st : entered) :
  Forall (fun s => is_Some (py_float s)) inp ->
  read_lenses py_float inp = Some (Finished st rest) -> entered_aligned st.
Proof.
  intros Hnum.
  apply (while_true_invariant _ read_lens_consumes
           (fun st inp => Forall (fun s => is_Some (py_float s)) inp /\
                          entered_aligned st) entered_aligned).
  - intros st0 inp0 st' rest0 [Hnum0 [Hms Hds]] Hstep.
    destruct (read_lens_numeric _ _ _ _ Hnum0 Hstep)
      as (Hrest & Hfs' & Hms' & Hds').
    split; [done|]. unfold entered_aligned.
    rewrite Hfs', Hms', Hds'. split; [lia|].
    destruct (decide (entered_focal_lengths st0 = [])) as [He|Hne].
    + rewrite He in Hds |- *. simpl in *. lia.
    + destruct (entered_focal_lengths st0); [done|]. simpl in *. lia.
  - intros st0 inp0 st' rest0 [_ Hal] Hbreak.
    by rewrite (read_lens_Break _ _ _ _ Hbreak).
  - by repeat split.
Qed.

(** X25: if every line typed reads as a number, the lists the loop ends
    with are aligned: as many materials as focal lengths, and one distance
    fewer (none for no lens). *)
Theorem read_lenses_numeric_aligned (inp : list string) :
  Forall (fun s => is_Some (py_float s)) inp ->
  exists r,
    read_lenses py_float inp = Some r /\
    forall st rest,
      r = Finished st rest ->
      length (entered_materials st) = length (entered_focal_lengths st) /\
      length (entered_distances st)
      = pred (length (entered_focal_lengths st)).
Proof.
  intros Hnum.
  destruct (while_true_total _ read_lens_consumes (Entered [] [] []) inp)
    as [r Hr].
  exists r. split; [exact Hr|]. intros st rest ->.
  exact (read_lenses_aligned _ _ _ Hnum Hr).
Qed.

(** With fewer materials than lenses, at the constructor's temperature,
    the matrix is never reached. *)
Lemma transfer_matrix_loop_short_materials (self : LensSystem)
    (rest : list Qc) :
  (length (materials self) < length (focal_lengths self))%nat ->
  scalar_kind (temperature self) = PyFloat ->
  forall (i : nat) (M : mat2),
    drop i (focal_lengths self) = rest ->
    (i <= length (materials self))%nat ->
    exists e, transfer_matrix_loop self i rest M = Raise e.
Proof.
  intros Hshort Hkind. induction rest as [|f rest IH]; intros i M Hdrop Hi.
  - apply (f_equal length) in Hdrop. rewrite length_drop in Hdrop.
    simpl in Hdrop. lia.
  - assert (Hf : focal_lengths self !! i = Some f).
    { rewrite <- (Nat.add_0_r i), <- lookup_drop, Hdrop. reflexivity. }
    rewrite transfer_matrix_loop_cons. unfold py_getitem.
    destruct (materials self !! i) as [m|] eqn:Hm; [|by eexists].
    cbn [mbind outcome_bind]. rewrite Hkind.
    destruct (decide (f * get_n m (scalar_value (temperature self)) = 0))
      as [Hz|Hnz].
    + rewrite (truediv_zero _ _ _ Hz). by eexists.
    + rewrite (truediv_ok _ _ _ Hnz). cbn [mbind outcome_bind].
      apply IH.
      * rewrite (drop_S _ _ _ Hf) in Hdrop. congruence.
      * apply lookup_lt_Some in Hm. lia.
Qed.

Lemma entered_system_short_materials (st : entered) :
  (length (entered_materials st) < length (entered_focal_lengths st))%nat ->
  exists e, transfer_matrix (entered_system st) = Raise e.
Proof.
  intros Hshort. unfold transfer_matrix.
  apply transfer_matrix_loop_short_materials; [done | done | done | lia].
Qed.

Lemma read_lens_deficit (st st' : entered) (inp rest : list string) :
  (length (entered_materials st) < length (entered_focal_lengths st))%nat ->
  read_lens py_float st inp = Continue st' rest ->
  (length (entered_materials st') < length (entered_focal_lengths st'))%nat.
Proof.
  intros Hshort Hstep.
  apply read_lens_Continue in Hstep as [_ [->|(f & Hf & Hfs & Hd & Hm)]];
    [done|].
  rewrite Hfs, length_app. cbn [length].
  destruct Hm as [->|(_ & _ & n & dn & ->)]; [lia|].
  rewrite length_app. simpl. lia.
Qed.

(** X26: a lens left without a material is never given one later: from a
    state with fewer materials than focal lengths the loop can only end
    with fewer materials than focal lengths, and [transfer_matrix] on the
    system then built raises.  This is what follows a refractive index of
    the first lens that does not read as a number. *)
Theorem read_lenses_missing_material_persists :
  (forall st inp st' rest,
      (length (entered_materials st)
       < length (entered_focal_lengths st))%nat ->
      while_true (read_lens py_float) st inp = Some (Finished st' rest) ->
      (length (entered_materials st')
       < length (entered_focal_lengths st'))%nat /\
      exists e, transfer_matrix (entered_system st') = Raise e) /\
  (forall f_line n_line f inp st' rest,
      py_float f_line = Some f -> f <> 0 ->
      n_line <> ""%string -> py_float n_line = None ->
      read_lenses py_float (f_line :: n_line :: inp)
      = Some (Finished st' rest) ->
      exists e, transfer_matrix (entered_system st') = Raise e).
Proof.
  assert (Hpersist : forall st inp st' rest,
      (length (entered_materials st)
       < length (entered_focal_lengths st))%nat ->
      while_true (read_lens py_float) st inp = Some (Finished st' rest) ->
      (length (entered_materials st')
       < length (entered_focal_lengths st'))%nat).
  { intros st inp st' rest Hshort.
    apply (while_true_invariant _ read_lens_consumes
             (fun st _ => (length (entered_materials st)
                           < length (entered_focal_lengths st))%nat)
             (fun st => (length (entered_materials st)
                         < length (entered_focal_lengths st))%nat)).
    - intros st0 inp0 st1 rest0. apply read_lens_deficit.
    - intros st0 inp0 st1 rest0 H0 Hbreak.
      by rewrite (read_lens_Break _ _ _ _ Hbreak).
    - done. }
  split.
  - intros st inp st' rest Hshort Hrun.
    pose proof (Hpersist _ _ _ _ Hshort Hrun) as Hshort'.
    split; [done | by apply entered_system_short_materials].
  - intros f_line n_line f inp st' rest Hf Hnz Hn Hbad.
    unfold read_lenses. rewrite (while_true_unfold _ read_lens_consumes).
    unfold read_lens at 1. cbn [input_float]. rewrite Hf.
    rewrite decide_False by done.
    cbn [entered_focal_lengths entered_distances entered_materials app length].
    rewrite decide_False by lia. cbn [input_float_or].
    rewrite decide_False by done. rewrite Hbad.
    intros Hrun. apply entered_system_short_materials.
    eapply Hpersist; [|exact Hrun]. simpl. lia.
Qed.

End ConsoleProperties.

Lemma read_lenses_numeric_aligned_witness :
  exists r,
    read_lenses example_float
      ["2"; "1.5"; "0"; "4"; "10"; "1.5"; "2"; "0"]%string = Some r /\
    forall st rest,
      r = Finished st rest ->
      length (entered_materials st) = length (entered_focal_lengths st) /\
      length (entered_distances st)
      = pred (length (entered_focal_lengths st)).
Proof.
  apply read_lenses_numeric_aligned.
  repeat constructor; by eexists.
Defined.

Lemma read_lenses_missing_material_persists_witness :
  exists e,
    transfer_matrix (entered_system (Entered [lit 2] [] [])) = Raise e.
Proof.
  apply (proj2 (read_lenses_missing_material_persists example_float)
           "2"%string "x"%string (lit 2) ["0"%string]
           (Entered [lit 2] [] []) []);
    [reflexivity | done | done | reflexivity | by_evaluation].
Defined.
